(** * Hangram: a shallow embedding of the Korean-practice Telegram bot

    The development follows the source:
    - the session store ([createEmptySession], [getSession], [resetSession]);
    - ai.js, the gateway to the generative, speech and transcription
      services, including [transcribeAudioFromUrl];
    - the bot module: score bookkeeping ([addScoreToStats],
      [buildProgressBar], [getRamyunLevelMeta]) and the Telegraf handlers.

    Conventions of the model:
    - JavaScript numbers are IEEE-754 binary64 values, modelled by
      [spec_float] at precision 53 and exponent bound 1024, so that [+], [/],
      [*], [<] and [<=] are the operations the engine performs;
    - a string holds the UTF-8 encoding of the JavaScript string;
    - what [JSON.parse] returns is a [JsVal]; nothing in the source checks its
      shape, so a property access may throw a [TypeError];
    - every [await] on a collaborator (Telegram, OpenAI, fetch, fs, ffmpeg)
      is a [Call] answered by an [Oracle], which may also reject it;
    - one update is handled at a time: the interleaving of two handlers of
      the same user at an [await] is not modelled;
    - the wording of messages and prompts and the console log are left out;
      a message is identified by its kind and the values it interpolates. *)

From Stdlib Require Import ZArith QArith Qround Bool List Lia.
From Stdlib Require Import Floats.SpecFloat.
From stdpp Require Import base option list strings gmap sets pretty.

Local Open Scope Z_scope.
Set Warnings "-register-all".

(** ** Outcomes of JavaScript computations *)

Inductive Exn :=
| TypeError        (* property access on null/undefined, call of a non-function *)
| RangeError       (* String.prototype.repeat with a negative or infinite count *)
| DownloadFailed   (* the [Error] thrown by [transcribeAudioFromUrl] when [!res.ok] *)
| ExternalFailure. (* a rejection coming from a collaborator (network, parse, tool) *)

Inductive Outcome (A : Type) :=
| Returned (a : A)
| Thrown (e : Exn).
Arguments Returned {A} a.
Arguments Thrown {A} e.

Definition obind {A B} (x : Outcome A) (k : A -> Outcome B) : Outcome B :=
  match x with
  | Returned a => k a
  | Thrown e => Thrown e
  end.

(** ** Numbers *)

Module Num.

Definition number := spec_float.

Definition prec : Z := 53.
Definition emax : Z := 1024.

Definition NaN : number := S754_nan.
Definition zero : number := S754_zero false.

(** Integer literals of the source ([0], [10], [100], [500], ...). *)
Definition of_Z (z : Z) : number := binary_normalize prec emax z 0 false.

Definition add : number -> number -> number := SFadd prec emax.
Definition sub : number -> number -> number := SFsub prec emax.
Definition mul : number -> number -> number := SFmul prec emax.
Definition div : number -> number -> number := SFdiv prec emax.

(** [x < y] and [x <= y]; both are [false] as soon as one side is NaN. *)
Definition ltb : number -> number -> bool := SFltb.
Definition leb : number -> number -> bool := SFleb.

Definition is_nan (x : number) : bool :=
  match x with S754_nan => true | _ => false end.

(** [Number.isFinite]. *)
Definition isFinite (x : number) : bool :=
  match x with
  | S754_zero _ | S754_finite _ _ _ => true
  | S754_infinity _ | S754_nan => false
  end.

(** ToBoolean on a number: [0], [-0] and [NaN] are falsy. *)
Definition truthy (x : number) : bool :=
  match x with
  | S754_zero _ | S754_nan => false
  | _ => true
  end.

(** [x || 0] on numbers. *)
Definition or_zero (x : number) : number := if truthy x then x else zero.

(** [Math.max(x, y)]: NaN if either is NaN, and [+0] is larger than [-0]. *)
Definition Math_max (x y : number) : number :=
  match SFcompare x y with
  | None => NaN
  | Some Lt => y
  | Some Gt => x
  | Some Eq => match x with S754_zero true => y | _ => x end
  end.

(** [Math.min(x, y)]: NaN if either is NaN, and [-0] is smaller than [+0]. *)
Definition Math_min (x y : number) : number :=
  match SFcompare x y with
  | None => NaN
  | Some Lt => x
  | Some Gt => y
  | Some Eq => match x with S754_zero false => y | _ => x end
  end.

(** [Math.round]: the nearest integer, ties towards [+Infinity]; the result
    keeps the sign of its argument when it is a zero. A finite value is
    [(-1)^s * m * 2^e], so for [e < 0] the integer [floor (x + 1/2)] is
    computed exactly on [Z]. *)
Definition Math_round (x : number) : number :=
  match x with
  | S754_finite s m (Zneg p) =>
      let d := Z.pow_pos 2 p in
      let n := (2 * cond_Zopp s (Zpos m) + d) / (2 * d) in
      if n =? 0 then S754_zero s else of_Z n
  | _ => x
  end.

(** ToIntegerOrInfinity restricted to what [repeat] needs: [None] stands
    for a count that makes [repeat] throw (negative or infinite). *)
Definition repeat_count (x : number) : option nat :=
  match x with
  | S754_nan | S754_zero _ => Some 0%nat
  | S754_infinity _ => None
  | S754_finite s m e =>
      let n := match e with
               | Zneg p => Zpos m / Z.pow_pos 2 p
               | _ => Zpos m * 2 ^ e
               end in
      if n =? 0 then Some 0%nat
      else if s then None else Some (Z.to_nat n)
  end.

End Num.
Export Num.

(** [String.prototype.repeat]. *)
Fixpoint repeat_string (s : string) (n : nat) : string :=
  match n with
  | O => ""
  | S n' => s +:+ repeat_string s n'
  end.

Definition String_repeat (s : string) (count : number) : Outcome string :=
  match repeat_count count with
  | Some n => Returned (repeat_string s n)
  | None => Thrown RangeError
  end.

(** ** Score bookkeeping *)

Record Stats := mkStats { totalScore : number }.

Definition n0 : number := zero.
Definition n10 : number := of_Z 10.
Definition n100 : number := of_Z 100.
Definition n200 : number := of_Z 200.
Definition n300 : number := of_Z 300.
Definition n400 : number := of_Z 400.
Definition n500 : number := of_Z 500.

Definition buildProgressBar (score : number) : Outcome string :=
  let s := Math_max n0 (Math_min n500 score) in
  let totalBlocks := n10 in
  let filled := Math_round (mul (div s n500) totalBlocks) in
  let empty := sub totalBlocks filled in
  obind (String_repeat "⬛" filled) (fun a =>
  obind (String_repeat "⬜" empty) (fun b =>
  Returned (a +:+ b))).

Record RamyunLevel := mkRamyunLevel {
  name : string;
  description : string;
  imageUrl : string
}.

Definition ramyun_mild : RamyunLevel :=
  mkRamyunLevel "Ramyun Mild"
    "Very mild level 🌱 You're just getting started; the spicy stuff is still ahead!"
    "https://i.ibb.co/LKNMnbC/ramyunmild.png".
Definition ramyun_original : RamyunLevel :=
  mkRamyunLevel "Ramyun Original"
    "Classic flavor 🍜 You feel more comfortable now, but there's still a way to go before the real heat."
    "https://i.ibb.co/V0TxghVh/neoguriramyun.jpg".
Definition ramyun_spicy : RamyunLevel :=
  mkRamyunLevel "Ramyun Spicy"
    "Spicy ramyun 🌶 You're confident in Korean and not afraid of challenges."
    "https://i.ibb.co/bRHrxBPk/jinramyon.jpg".
Definition ramyun_very_spicy : RamyunLevel :=
  mkRamyunLevel "Ramyun Very Spicy"
    "Very spicy ramyun 🔥 You're advanced now; your grammar and vocabulary are in good shape."
    "https://i.ibb.co/QSDtykx/shinramyon.jpg".
Definition ramyun_nuclear : RamyunLevel :=
  mkRamyunLevel "Ramyun Nuclear"
    "NUCLEAR RAMYUN ☢️ You're almost Korean — you can eat and speak like a local."
    "https://i.ibb.co/3mpfbWn0/buldakramyon.jpg".

Definition getRamyunLevelMeta (score : number) : RamyunLevel :=
  let s := Math_max n0 (Math_min n500 score) in
  if ltb s n100 then ramyun_mild
  else if ltb s n200 then ramyun_original
  else if ltb s n300 then ramyun_spicy
  else if ltb s n400 then ramyun_very_spicy
  else ramyun_nuclear.


(** ** JavaScript values

    The values produced by [JSON.parse] and stored in a session. An object is
    the association list of its own properties. *)

Inductive JsVal :=
| VUndefined
| VNull
| VBool (b : bool)
| VNum (n : number)
| VStr (s : string)
| VArr (items : list JsVal)
| VObj (fields : list (string * JsVal)).

(** ToBoolean. *)
Definition js_truthy (v : JsVal) : bool :=
  match v with
  | VUndefined | VNull => false
  | VBool b => b
  | VNum n => truthy n
  | VStr s => negb (String.eqb s "")
  | VArr _ | VObj _ => true
  end.

Definition nullish (v : JsVal) : bool :=
  match v with
  | VUndefined | VNull => true
  | _ => false
  end.

Fixpoint own_property (fields : list (string * JsVal)) (k : string) : JsVal :=
  match fields with
  | [] => VUndefined
  | (k', v) :: rest => if String.eqb k k' then v else own_property rest k
  end.

(** [v.k] for the data property names used by the bot ([text], [questions],
    [score], [topic], ...): a [TypeError] on [null] and [undefined], the own
    property of an object, and [undefined] on every other value (none of the
    names is a built-in of [String], [Number], [Boolean] or [Array]). *)
Definition get_prop (v : JsVal) (k : string) : Outcome JsVal :=
  match v with
  | VUndefined | VNull => Thrown TypeError
  | VObj fields => Returned (own_property fields k)
  | _ => Returned VUndefined
  end.

(** [v.map(...)] as used on [questions]: only an array has a [map] method;
    the callback builds a template string and cannot throw. *)
Definition array_items (v : JsVal) : Outcome (list JsVal) :=
  match v with
  | VArr items => Returned items
  | _ => Thrown TypeError
  end.

(** ** Sessions *)

Inductive ModeState := idle | waiting_for_answers | waiting_for_voice.
Inductive PracticeType := speaking | listening | reading | free.

Global Instance ModeState_eq_dec : EqDecision ModeState.
Proof. solve_decision. Defined.
Global Instance PracticeType_eq_dec : EqDecision PracticeType.
Proof. solve_decision. Defined.

(** The sub-record of the reading and of the listening mode. *)
Record Comprehension := mkComprehension {
  state : ModeState;
  exercise : JsVal             (* null, or { text, questions } *)
}.

Record SpeakingMode := mkSpeakingMode {
  speaking_state : ModeState;
  speaking_exercise : JsVal;   (* null, or { topic, prompt_ko, prompt_ru } *)
  lastTranscript : option string
}.

Record Session := mkSession {
  level : option string;
  practiceType : option PracticeType;
  stats : option Stats;
  readingMode : Comprehension;
  listeningMode : Comprehension;
  speakingMode : SpeakingMode
}.

Definition createEmptySession : Session :=
  {| level := None;
     practiceType := None;
     stats := Some {| totalScore := n0 |};
     readingMode := {| state := idle; exercise := VNull |};
     listeningMode := {| state := idle; exercise := VNull |};
     speakingMode := {| speaking_state := idle; speaking_exercise := VNull;
                        lastTranscript := None |} |}.

(** Field assignments. *)
Definition set_level (l : option string) (s : Session) : Session :=
  mkSession l (practiceType s) (stats s) (readingMode s) (listeningMode s) (speakingMode s).
Definition set_practiceType (p : option PracticeType) (s : Session) : Session :=
  mkSession (level s) p (stats s) (readingMode s) (listeningMode s) (speakingMode s).
Definition set_stats (st : option Stats) (s : Session) : Session :=
  mkSession (level s) (practiceType s) st (readingMode s) (listeningMode s) (speakingMode s).
Definition set_reading (r : Comprehension) (s : Session) : Session :=
  mkSession (level s) (practiceType s) (stats s) r (listeningMode s) (speakingMode s).
Definition set_listening (r : Comprehension) (s : Session) : Session :=
  mkSession (level s) (practiceType s) (stats s) (readingMode s) r (speakingMode s).
Definition set_speaking (r : SpeakingMode) (s : Session) : Session :=
  mkSession (level s) (practiceType s) (stats s) (readingMode s) (listeningMode s) r.

Definition set_state (st : ModeState) (c : Comprehension) : Comprehension :=
  mkComprehension st (exercise c).
Definition set_exercise (e : JsVal) (c : Comprehension) : Comprehension :=
  mkComprehension (state c) e.
Definition set_speaking_state (st : ModeState) (c : SpeakingMode) : SpeakingMode :=
  mkSpeakingMode st (speaking_exercise c) (lastTranscript c).
Definition set_speaking_exercise (e : JsVal) (c : SpeakingMode) : SpeakingMode :=
  mkSpeakingMode (speaking_state c) e (lastTranscript c).
Definition set_lastTranscript (t : option string) (c : SpeakingMode) : SpeakingMode :=
  mkSpeakingMode (speaking_state c) (speaking_exercise c) t.

(** [session.level || "1"]. *)
Definition level_or_default (l : option string) : string :=
  match l with
  | Some s => if String.eqb s "" then "1" else s
  | None => "1"
  end.

(** [session.stats?.totalScore || 0]. *)
Definition total_of (s : Session) : number :=
  match stats s with
  | Some st => or_zero (totalScore st)
  | None => n0
  end.

(** [addScoreToStats(session, score)]. Every call site is guarded by
    [typeof result.score === "number"], so [Number(score)] is the identity. *)
Definition addScoreToStats (session : Session) (score : number) : Session :=
  let session := match stats session with
                 | None => set_stats (Some {| totalScore := n0 |}) session
                 | Some _ => session
                 end in
  let value := score in
  if negb (isFinite value) then session
  else
    let current := total_of session in
    let updated := add current value in
    set_stats (Some {| totalScore := Math_max n0 updated |}) session.

(** ** The outside world

    Every [await] on a collaborator is a [Call]. What the collaborator answers
    is not the bot's business: an [Oracle] gives, for the [n]-th call of a
    run, either a result or a rejection. *)

Definition Buffer := list Byte.byte.

(** The five prompts of ai.js, by the values interpolated into them. *)
Inductive Prompt :=
| PGenerateReading (level : string)
| PEvaluateReading (level : string) (text : JsVal) (questionsList : list JsVal)
                   (userAnswers : string)
| PGenerateSpeaking (level : string)
| PEvaluateSpeaking (level : string) (topic promptKo promptRu : JsVal)
                    (transcript : string)
| PFreeChat (level : string) (safeUserMessage : string).

Inductive VoiceMode := VoiceFree | VoiceSpeaking.

(** What the bot sends to the chat, by kind. *)
Inductive Msg :=
| MsgGreeting
| MsgChooseLevel
| MsgLevelSaved (lvl : string)
| MsgWhatToPractice
| MsgChooseNewLevel
| MsgLevelFirst
| MsgNoPointsYet
| MsgProgress (displayScore : number) (bar : string) (lvl : RamyunLevel)
| MsgPreparing (type : PracticeType)
| MsgReadingText (level : string) (text : JsVal)
| MsgQuestions (type : PracticeType) (questions : list JsVal)
| MsgListeningAudio (level : string) (audio : Buffer)
| MsgSpeakingTask (level : string) (topic prompt_ko prompt_ru : JsVal)
| MsgCouldNotPrepare (type : PracticeType)
| MsgNoActiveTask (type : PracticeType)
| MsgChecking (type : PracticeType)
| MsgResult (type : PracticeType) (result : JsVal)
| MsgCheckFailed (type : PracticeType)
| MsgFreeChat (reply : JsVal)
| MsgFreeChatFailed
| MsgNext (type : PracticeType)
| MsgChoosePractice
| MsgVoicePlease
| MsgTranscribing (mode : VoiceMode)
| MsgSpeakingResult (transcript : string) (result : JsVal)
| MsgVoiceFailed (mode : VoiceMode).

Record Response := mkResponse { ok : bool }.

Inductive Call : Type -> Type :=
(* Telegraf context *)
| ctx_reply (m : Msg) : Call unit
| ctx_answerCbQuery : Call unit
| ctx_getFileLink (file_id : string) : Call string
(* client.responses.create followed by JSON.parse(response.output_text);
   a rejection covers a failed request as well as a SyntaxError *)
| responses_create (p : Prompt) : Call JsVal
| audio_speech_create (input : JsVal) : Call Buffer
| audio_transcriptions_create (file : string) : Call JsVal
(* node-fetch, fs, ffmpeg, Date *)
| fetch (url : string) : Call Response
| res_arrayBuffer : Call Buffer
| fs_mkdir (dir : string) : Call unit
| Date_now : Call Z
| fs_writeFile (path : string) (data : Buffer) : Call unit
| ffmpeg_save (input output : string) : Call unit
| fs_unlink (path : string) : Call unit.

Definition Oracle := forall X, nat -> Call X -> Outcome X.

Inductive AnyCall := any_call (X : Type) (c : Call X).
Arguments any_call {X} c.

(** ** The handler monad

    A handler runs against the session object it obtained from [getSession],
    the scratch files on disk, and the oracle. The [trace] records every call
    with its position in the run and the session as it stood when the call
    was issued, that is, what any other observer of the session sees while
    the call is pending. *)

Record Event := mkEvent { ev_tick : nat; ev_call : AnyCall; ev_session : Session }.

Record World := mkWorld {
  session : Session;
  files : gset string;
  clock : nat;
  trace : list Event
}.

Definition M (A : Type) : Type := Oracle -> World -> Outcome A * World.

Definition ret {A} (a : A) : M A := fun _ w => (Returned a, w).
Definition throw {A} (e : Exn) : M A := fun _ w => (Thrown e, w).
Definition bind {A B} (m : M A) (k : A -> M B) : M B :=
  fun o w =>
    match m o w with
    | (Returned a, w') => k a o w'
    | (Thrown e, w') => (Thrown e, w')
    end.

(** [try { body } catch (err) { handler }]. *)
Definition try_catch {A} (body : M A) (handler : Exn -> M A) : M A :=
  fun o w =>
    match body o w with
    | (Returned a, w') => (Returned a, w')
    | (Thrown e, w') => handler e o w'
    end.

Definition lift {A} (x : Outcome A) : M A := fun _ w => (x, w).

Global Instance M_ret : MRet M := @ret.
Global Instance M_bind : MBind M := fun A B k m => bind m k.

Definition get_session : M Session := fun _ w => (Returned (session w), w).
Definition modify_session (f : Session -> Session) : M unit :=
  fun _ w => (Returned tt, mkWorld (f (session w)) (files w) (clock w) (trace w)).
Definition modify_files (f : gset string -> gset string) : M unit :=
  fun _ w => (Returned tt, mkWorld (session w) (f (files w)) (clock w) (trace w)).

(** [await c]. *)
Definition call {X} (c : Call X) : M X :=
  fun o w =>
    (o X (clock w) c,
     mkWorld (session w) (files w) (S (clock w))
             (trace w ++ [mkEvent (clock w) (any_call c) (session w)])).

(** A promise that is started but not awaited, with [.catch(() => {})]: the
    caller goes on at once and never learns the outcome. The model lets the
    promise settle where it is started, so [files] is the disk as it stands
    once the operations started so far have settled. *)
Definition fire_and_forget (m : M unit) : M unit :=
  try_catch m (fun _ => ret tt).

(** ** The gateway (ai.js) *)

Definition generateReadingExercise (level : string) : M JsVal :=
  call (responses_create (PGenerateReading level)).

Definition evaluateReadingAnswers (level : string) (text questions : JsVal)
    (userAnswers : string) : M JsVal :=
  questionsList ← lift (array_items questions);
  call (responses_create (PEvaluateReading level text questionsList userAnswers)).

Definition ttsFromKoreanText (text : JsVal) : M Buffer :=
  call (audio_speech_create text).

Definition generateFreeChatReply (level : string) (userMessage : string) : M JsVal :=
  let safeUserMessage := userMessage in          (* userMessage || "" *)
  call (responses_create (PFreeChat level safeUserMessage)).

Definition generateSpeakingExercise (level : string) : M JsVal :=
  call (responses_create (PGenerateSpeaking level)).

Definition evaluateSpeakingResponse (level : string) (topic promptKo promptRu : JsVal)
    (transcript : string) : M JsVal :=
  call (responses_create (PEvaluateSpeaking level topic promptKo promptRu transcript)).

(** [String.prototype.trim] strips the code points of WhiteSpace and
    LineTerminator from both ends. A string of the model holds the UTF-8
    encoding of the text, so such a code point is one, two or three bytes:
    - U+0009 to U+000D and U+0020;
    - U+00A0 (C2 A0);
    - U+1680 (E1 9A 80), U+2000 to U+200A (E2 80 80 to E2 80 8A), U+2028 and
      U+2029 (E2 80 A8, E2 80 A9), U+202F (E2 80 AF), U+205F (E2 81 9F),
      U+3000 (E3 80 80) and U+FEFF (EF BB BF). *)
Definition white_space1 (a : Ascii.ascii) : bool :=
  let n := Ascii.nat_of_ascii a in
  Nat.eqb n 32 || (Nat.leb 9 n && Nat.leb n 13).

Definition white_space2 (a b : Ascii.ascii) : bool :=
  Nat.eqb (Ascii.nat_of_ascii a) 194 && Nat.eqb (Ascii.nat_of_ascii b) 160.

Definition white_space3 (a b c : Ascii.ascii) : bool :=
  let x := Ascii.nat_of_ascii a in
  let y := Ascii.nat_of_ascii b in
  let z := Ascii.nat_of_ascii c in
  (Nat.eqb x 225 && Nat.eqb y 154 && Nat.eqb z 128)
  || (Nat.eqb x 226 && Nat.eqb y 128
      && ((Nat.leb 128 z && Nat.leb z 138) || Nat.eqb z 168 || Nat.eqb z 169
          || Nat.eqb z 175))
  || (Nat.eqb x 226 && Nat.eqb y 129 && Nat.eqb z 159)
  || (Nat.eqb x 227 && Nat.eqb y 128 && Nat.eqb z 128)
  || (Nat.eqb x 239 && Nat.eqb y 187 && Nat.eqb z 191).

(** Drop the leading code points that [sp1], [sp2] or [sp3] recognise. *)
Fixpoint strip (sp1 : Ascii.ascii -> bool) (sp2 : Ascii.ascii -> Ascii.ascii -> bool)
    (sp3 : Ascii.ascii -> Ascii.ascii -> Ascii.ascii -> bool) (s : string) : string :=
  match s with
  | String a rest =>
      if sp1 a then strip sp1 sp2 sp3 rest
      else
        match rest with
        | String b rest2 =>
            if sp2 a b then strip sp1 sp2 sp3 rest2
            else
              match rest2 with
              | String c rest3 => if sp3 a b c then strip sp1 sp2 sp3 rest3 else s
              | EmptyString => s
              end
        | EmptyString => s
        end
  | EmptyString => EmptyString
  end.

Definition trimStart (s : string) : string :=
  strip white_space1 white_space2 white_space3 s.

(** From the end the bytes of a code point come in the opposite order. *)
Definition trimEnd (s : string) : string :=
  String.rev (strip white_space1 (fun b a => white_space2 a b)
                    (fun c b a => white_space3 a b c) (String.rev s)).

Definition trim (s : string) : string := trimEnd (trimStart s).

(** The code points of WhiteSpace and LineTerminator, in UTF-8. *)
Definition white_space_code_points : list string :=
  map (fun bytes => String.string_of_list_ascii (map Ascii.ascii_of_nat bytes))
      [[9]; [10]; [11]; [12]; [13]; [32]; [194; 160]; [225; 154; 128];
       [226; 128; 128]; [226; 128; 129]; [226; 128; 130]; [226; 128; 131];
       [226; 128; 132]; [226; 128; 133]; [226; 128; 134]; [226; 128; 135];
       [226; 128; 136]; [226; 128; 137]; [226; 128; 138]; [226; 128; 168];
       [226; 128; 169]; [226; 128; 175]; [226; 129; 159]; [227; 128; 128];
       [239; 187; 191]]%nat.

(** The two scratch files of one transcription, below the working directory. *)
Definition oggPath_of (ts : Z) : string := "tmp/input-" +:+ pretty ts +:+ ".oga".
Definition mp3Path_of (ts : Z) : string := "tmp/output-" +:+ pretty ts +:+ ".mp3".

Definition transcribeAudioFromUrl (fileUrl : string) : M string :=
  (* 1) download *)
  res ← call (fetch fileUrl);
  (if negb (ok res) then throw DownloadFailed else ret tt);;
  inputBuffer ← call res_arrayBuffer;
  (* 2) temporary files *)
  call (fs_mkdir "tmp");;
  ts ← call Date_now;
  let oggPath := oggPath_of ts in
  let mp3Path := mp3Path_of ts in
  call (fs_writeFile oggPath inputBuffer);;
  modify_files (fun fs => {[ oggPath ]} ∪ fs);;
  (* 3) .oga -> .mp3 *)
  call (ffmpeg_save oggPath mp3Path);;
  modify_files (fun fs => {[ mp3Path ]} ∪ fs);;
  (* 4) transcription *)
  transcription ← call (audio_transcriptions_create mp3Path);
  (* 5) delete the temporary files *)
  fire_and_forget (call (fs_unlink oggPath);; modify_files (fun fs => fs ∖ {[ oggPath ]}));;
  fire_and_forget (call (fs_unlink mp3Path);; modify_files (fun fs => fs ∖ {[ mp3Path ]}));;
  text ← (if js_truthy transcription
          then t ← lift (get_prop transcription "text");
               ret (if js_truthy t then t else VStr "")
          else ret (VStr ""));
  match text with
  | VStr s => ret (trim s)
  | _ => throw TypeError                         (* text.trim is not a function *)
  end.

(** ** The handlers *)

Definition is_number (v : JsVal) : option number :=
  match v with VNum n => Some n | _ => None end.

(** [if (typeof result.score === "number") addScoreToStats(session, result.score)]. *)
Definition apply_score (result : JsVal) : M unit :=
  score ← lift (get_prop result "score");
  match is_number score with
  | Some n => modify_session (fun s => addScoreToStats s n)
  | None => ret tt
  end.

(** The loops that format [per_question] and [corrections] read properties of
    each element, which throws on a [null] element. *)
Definition read_each (items : list JsVal) (k : string) : M unit :=
  lift (foldr (fun q acc => obind (get_prop q k) (fun _ => acc)) (Returned tt) items).

Definition format_result (result : JsVal) : M unit :=
  per_question ← lift (get_prop result "per_question");
  match per_question with
  | VArr items => read_each items "correct"
  | _ => ret tt
  end.

(* --- Reading --- *)

Definition startReadingExercise : M unit :=
  session ← get_session;
  let level := level_or_default (level session) in
  try_catch
    (exercise ← generateReadingExercise level;
     modify_session (fun s => set_reading (set_state waiting_for_answers (readingMode s)) s);;
     modify_session (fun s => set_reading (set_exercise exercise (readingMode s)) s);;
     text ← lift (get_prop exercise "text");
     call (ctx_reply (MsgReadingText level text));;
     questions ← lift (get_prop exercise "questions");
     items ← lift (array_items questions);
     call (ctx_reply (MsgQuestions reading items)))
    (fun err => call (ctx_reply (MsgCouldNotPrepare reading))).

Definition handleReadingAnswers (userAnswersText : string) : M unit :=
  session ← get_session;
  let level := level_or_default (level session) in
  if negb (js_truthy (exercise (readingMode session))) then
    call (ctx_reply (MsgNoActiveTask reading))
  else
    text ← lift (get_prop (exercise (readingMode session)) "text");
    questions ← lift (get_prop (exercise (readingMode session)) "questions");
    try_catch
      (call (ctx_reply (MsgChecking reading));;
       result ← evaluateReadingAnswers level text questions userAnswersText;
       apply_score result;;
       modify_session (fun s => set_reading (set_state idle (readingMode s)) s);;
       format_result result;;
       call (ctx_reply (MsgResult reading result)))
      (fun err => call (ctx_reply (MsgCheckFailed reading))).

(* --- Listening --- *)

Definition startListeningExercise : M unit :=
  session ← get_session;
  let level := level_or_default (level session) in
  try_catch
    (exercise ← generateReadingExercise level;
     modify_session (fun s => set_listening (set_state waiting_for_answers (listeningMode s)) s);;
     modify_session (fun s => set_listening (set_exercise exercise (listeningMode s)) s);;
     text ← lift (get_prop exercise "text");
     audioBuffer ← ttsFromKoreanText text;
     call (ctx_reply (MsgListeningAudio level audioBuffer));;
     questions ← lift (get_prop exercise "questions");
     items ← lift (array_items questions);
     call (ctx_reply (MsgQuestions listening items)))
    (fun err => call (ctx_reply (MsgCouldNotPrepare listening))).

Definition handleListeningAnswers (userAnswersText : string) : M unit :=
  session ← get_session;
  let level := level_or_default (level session) in
  if negb (js_truthy (exercise (listeningMode session))) then
    call (ctx_reply (MsgNoActiveTask listening))
  else
    text ← lift (get_prop (exercise (listeningMode session)) "text");
    questions ← lift (get_prop (exercise (listeningMode session)) "questions");
    try_catch
      (call (ctx_reply (MsgChecking listening));;
       result ← evaluateReadingAnswers level text questions userAnswersText;
       apply_score result;;
       modify_session (fun s => set_listening (set_state idle (listeningMode s)) s);;
       format_result result;;
       call (ctx_reply (MsgResult listening result)))
      (fun err => call (ctx_reply (MsgCheckFailed listening))).

(* --- Free chat --- *)

Definition format_free_chat (reply : JsVal) : M unit :=
  lift (get_prop reply "korean");;
  lift (get_prop reply "english_translation");;
  corrections ← lift (get_prop reply "corrections");
  match corrections with
  | VArr items => read_each (take 3 items) "original"
  | _ => ret tt
  end.

Definition startFreeChat : M unit :=
  session ← get_session;
  let level := level_or_default (level session) in
  try_catch
    (reply ← generateFreeChatReply level "";
     format_free_chat reply;;
     call (ctx_reply (MsgFreeChat reply)))
    (fun err => call (ctx_reply MsgFreeChatFailed)).

Definition handleFreeChatMessage (userText : string) : M unit :=
  session ← get_session;
  let level := level_or_default (level session) in
  try_catch
    (reply ← generateFreeChatReply level userText;
     format_free_chat reply;;
     call (ctx_reply (MsgFreeChat reply)))
    (fun err => call (ctx_reply MsgFreeChatFailed)).

(* --- Speaking --- *)

Definition startSpeakingExercise : M unit :=
  session ← get_session;
  let level := level_or_default (level session) in
  try_catch
    (exercise ← generateSpeakingExercise level;
     modify_session (fun s => set_speaking (set_speaking_state waiting_for_voice (speakingMode s)) s);;
     modify_session (fun s => set_speaking (set_speaking_exercise exercise (speakingMode s)) s);;
     modify_session (fun s => set_speaking (set_lastTranscript None (speakingMode s)) s);;
     topic ← lift (get_prop exercise "topic");
     prompt_ko ← lift (get_prop exercise "prompt_ko");
     prompt_ru ← lift (get_prop exercise "prompt_ru");
     call (ctx_reply (MsgSpeakingTask level topic prompt_ko prompt_ru)))
    (fun err => call (ctx_reply (MsgCouldNotPrepare speaking))).

(* --- Practice mode selection --- *)

Definition handlePracticeChoice (type : PracticeType) : M unit :=
  try_catch
    (modify_session (set_practiceType (Some type));;
     call ctx_answerCbQuery;;
     match type with
     | reading =>
         call (ctx_reply (MsgPreparing reading));;
         startReadingExercise
     | speaking =>
         call (ctx_reply (MsgPreparing speaking));;
         startSpeakingExercise
     | listening =>
         call (ctx_reply (MsgPreparing listening));;
         startListeningExercise
     | free =>
         call ctx_answerCbQuery;;
         call (ctx_reply (MsgPreparing free));;
         startFreeChat
     end)
    (fun err => ret tt).

(* --- Buttons after results --- *)

Definition on_READING_NEXT : M unit :=
  try_catch
    (modify_session (set_practiceType (Some reading));;
     call ctx_answerCbQuery;;
     startReadingExercise;;
     call (ctx_reply (MsgNext reading)))
    (fun err => ret tt).

Definition on_LISTENING_NEXT : M unit :=
  try_catch
    (modify_session (set_practiceType (Some listening));;
     call ctx_answerCbQuery;;
     startListeningExercise;;
     call (ctx_reply (MsgNext listening)))
    (fun err => ret tt).

Definition on_SPEAKING_NEXT : M unit :=
  try_catch
    (modify_session (set_practiceType (Some speaking));;
     call ctx_answerCbQuery;;
     startSpeakingExercise;;
     call (ctx_reply (MsgNext speaking)))
    (fun err => ret tt).

Definition on_CHANGE_MODE_INLINE : M unit :=
  try_catch
    (modify_session (set_practiceType None);;
     call ctx_answerCbQuery;;
     call (ctx_reply MsgChoosePractice))
    (fun err => ret tt).

(* --- Level selection and the bottom keyboard --- *)

Definition levels : list string := ["1"; "2"; "3"; "4"; "5"; "6"].

Definition on_LEVEL (lvl : string) : M unit :=
  try_catch
    (modify_session (set_level (Some lvl));;
     call ctx_answerCbQuery;;
     call (ctx_reply (MsgLevelSaved lvl));;
     call (ctx_reply MsgWhatToPractice))
    (fun err => ret tt).

Definition CHANGE_LEVEL_TEXT : string := "Change difficulty".
Definition CHANGE_MODE_TEXT : string := "Change mode".
Definition SHOW_PROGRESS_TEXT : string := "See progress".

Definition on_CHANGE_LEVEL_TEXT : M unit :=
  try_catch
    (modify_session (set_level None);;
     call (ctx_reply MsgChooseNewLevel))
    (fun err => ret tt).

Definition on_CHANGE_MODE_TEXT : M unit :=
  try_catch
    (session ← get_session;
     if negb (match level session with
              | Some l => negb (String.eqb l "")
              | None => false
              end)
     then call (ctx_reply MsgLevelFirst)
     else call (ctx_reply MsgWhatToPractice))
    (fun err => ret tt).

Definition on_SHOW_PROGRESS_TEXT : M unit :=
  try_catch
    (session ← get_session;
     let total := total_of session in
     if leb total n0 then call (ctx_reply MsgNoPointsYet)
     else
       let displayScore := Math_max n0 (Math_min n500 total) in
       bar ← lift (buildProgressBar displayScore);
       let level := getRamyunLevelMeta displayScore in
       call (ctx_reply (MsgProgress displayScore bar level)))
    (fun err => ret tt).

(** [bot.start]; its first statement, [resetSession(userId)], acts on the
    store and is performed by [handle] below. *)
Definition on_start : M unit :=
  try_catch
    (call (ctx_reply MsgGreeting);;
     call (ctx_reply MsgChooseLevel))
    (fun err => ret tt).

(* --- General text handler --- *)

Definition on_text (text : string) : M unit :=
  if String.eqb text CHANGE_LEVEL_TEXT || String.eqb text CHANGE_MODE_TEXT
     || String.eqb text SHOW_PROGRESS_TEXT
  then ret tt                                            (* next() *)
  else
    session ← get_session;
    if bool_decide (practiceType session = Some free) then
      handleFreeChatMessage text
    else if bool_decide (practiceType session = Some reading)
            && bool_decide (state (readingMode session) = waiting_for_answers) then
      handleReadingAnswers text
    else if bool_decide (practiceType session = Some listening)
            && bool_decide (state (listeningMode session) = waiting_for_answers) then
      handleListeningAnswers text
    else if bool_decide (practiceType session = Some speaking)
            && bool_decide (speaking_state (speakingMode session) = waiting_for_voice) then
      call (ctx_reply MsgVoicePlease)
    else ret tt.                                         (* next() *)

(* --- Voice messages --- *)

Definition on_voice (file_id : string) : M unit :=
  session ← get_session;
  if bool_decide (practiceType session = Some free) then
    try_catch
      (fileUrl ← call (ctx_getFileLink file_id);
       call (ctx_reply (MsgTranscribing VoiceFree));;
       transcript ← transcribeAudioFromUrl fileUrl;
       handleFreeChatMessage transcript)
      (fun err => call (ctx_reply (MsgVoiceFailed VoiceFree)))
  else if negb (bool_decide (practiceType session = Some speaking))
          || negb (bool_decide (speaking_state (speakingMode session) = waiting_for_voice)) then
    ret tt                                               (* next() *)
  else
    try_catch
      (fileUrl ← call (ctx_getFileLink file_id);
       call (ctx_reply (MsgTranscribing VoiceSpeaking));;
       transcript ← transcribeAudioFromUrl fileUrl;
       modify_session (fun s => set_speaking (set_lastTranscript (Some transcript) (speakingMode s)) s);;
       session ← get_session;
       let level := level_or_default (level session) in
       let exercise := speaking_exercise (speakingMode session) in
       topic ← lift (get_prop exercise "topic");
       promptKo ← lift (get_prop exercise "prompt_ko");
       promptRu ← lift (get_prop exercise "prompt_ru");
       result ← evaluateSpeakingResponse level topic promptKo promptRu transcript;
       apply_score result;;
       modify_session (fun s => set_speaking (set_speaking_state idle (speakingMode s)) s);;
       call (ctx_reply (MsgSpeakingResult transcript result)))
      (fun err => call (ctx_reply (MsgVoiceFailed VoiceSpeaking))).

(** ** The session store and the dispatcher

    [sessions] is the process-wide map of the session store. One update is handled
    at a time: the handler works on the session object that [getSession]
    returned, and what it leaves there is what the store holds afterwards. *)

Record Bot := mkBot {
  sessions : gmap Z Session;
  disk : gset string;
  ticks : nat;
  history : list Event
}.

Definition launch : Bot := mkBot ∅ ∅ 0 [].

Definition getSession (userId : Z) (ss : gmap Z Session) : Session * gmap Z Session :=
  match ss !! userId with
  | Some s => (s, ss)
  | None => (createEmptySession, <[userId := createEmptySession]> ss)
  end.

Definition resetSession (userId : Z) (ss : gmap Z Session) : gmap Z Session :=
  <[userId := createEmptySession]> ss.

Inductive Action :=
| LEVEL (lvl : string)
| PRACTICE (type : PracticeType)
| NEXT (type : PracticeType)
| CHANGE_MODE_INLINE.

Inductive Update :=
| command_start
| callback_query (data : Action)
| text_message (text : string)
| voice_message (file_id : string).

(** The Telegraf middleware chain, in registration order; [None] when no
    handler is registered for the update. *)
Definition route (u : Update) : option (M unit) :=
  match u with
  | command_start => Some on_start
  | callback_query (LEVEL lvl) =>
      if bool_decide (lvl ∈ levels) then Some (on_LEVEL lvl) else None
  | callback_query (PRACTICE type) => Some (handlePracticeChoice type)
  | callback_query (NEXT reading) => Some on_READING_NEXT
  | callback_query (NEXT listening) => Some on_LISTENING_NEXT
  | callback_query (NEXT speaking) => Some on_SPEAKING_NEXT
  | callback_query (NEXT free) => None
  | callback_query CHANGE_MODE_INLINE => Some on_CHANGE_MODE_INLINE
  | text_message text =>
      if String.eqb text CHANGE_LEVEL_TEXT then Some on_CHANGE_LEVEL_TEXT
      else if String.eqb text CHANGE_MODE_TEXT then Some on_CHANGE_MODE_TEXT
      else if String.eqb text SHOW_PROGRESS_TEXT then Some on_SHOW_PROGRESS_TEXT
      else Some (on_text text)
  | voice_message file_id => Some (on_voice file_id)
  end.

(** The session object a handler works on: [bot.start] installs a fresh one
    with [resetSession], every other handler asks [getSession]. *)
Definition open_session (u : Update) (userId : Z) (ss : gmap Z Session)
    : Session * gmap Z Session :=
  match u with
  | command_start => (createEmptySession, resetSession userId ss)
  | _ => getSession userId ss
  end.

Definition handle (o : Oracle) (userId : Z) (u : Update) (b : Bot) : Bot :=
  match route u with
  | None => b
  | Some handler =>
      let '(s, ss) := open_session u userId (sessions b) in
      let '(_, w) := handler o (mkWorld s (disk b) (ticks b) (history b)) in
      mkBot (<[userId := session w]> ss) (files w) (clock w) (trace w)
  end.

(** The bots that can be observed after any number of updates, when the
    collaborators answer within [honest]. *)
Inductive reachable_with (honest : Oracle -> Prop) : Bot -> Prop :=
| reachable_launch : reachable_with honest launch
| reachable_handle o userId u b :
    honest o -> reachable_with honest b -> reachable_with honest (handle o userId u b).

(** Whatever the collaborators answer. *)
Definition reachable : Bot -> Prop := reachable_with (fun _ => True).

(** ** Observing a run *)

Definition result {A} (m : M A) (o : Oracle) (w : World) : Outcome A := (m o w).1.
Definition exec {A} (m : M A) (o : Oracle) (w : World) : World := (m o w).2.

(** The calls issued between two worlds of one run. *)
Definition new_events (w w' : World) : list Event :=
  drop (length (trace w)) (trace w').

Definition call_prompt (c : AnyCall) : option Prompt :=
  match c with
  | any_call (responses_create p) => Some p
  | _ => None
  end.

Definition call_unlink (c : AnyCall) : option string :=
  match c with
  | any_call (fs_unlink path) => Some path
  | _ => None
  end.

Definition call_reply (c : AnyCall) : option Msg :=
  match c with
  | any_call (ctx_reply m) => Some m
  | _ => None
  end.


Definition generation_prompt (p : Prompt) : bool :=
  match p with
  | PGenerateReading _ | PGenerateSpeaking _ => true
  | _ => false
  end.

(** The gateway never hands out [null] (or [undefined]) as a generated
    exercise. *)
Definition generates_exercises (o : Oracle) : Prop :=
  forall n p v, generation_prompt p = true ->
    o JsVal n (responses_create p) = Returned v -> nullish v = false.

(** A mode that is waiting has an exercise. *)
Definition exercise_present (s : Session) : Prop :=
  (state (readingMode s) <> idle -> nullish (exercise (readingMode s)) = false)
  /\ (state (listeningMode s) <> idle -> nullish (exercise (listeningMode s)) = false)
  /\ (speaking_state (speakingMode s) <> idle ->
      nullish (speaking_exercise (speakingMode s)) = false).

(** ** Concrete collaborators

    [cooperative] answers every call successfully and in the shape the
    prompts of ai.js ask for; [failing_at k] makes the [k]-th call of a run
    fail, and [answering_at k v] makes the gateway answer [v] there. *)

Definition sample_exercise : JsVal :=
  VObj [("text", VStr "Minsu goes to the market every Saturday.");
        ("questions", VArr [VStr "Who goes to the market?"; VStr "When?";
                            VStr "Where?"; VStr "How often?"; VStr "Why?"])].

Definition sample_speaking_exercise : JsVal :=
  VObj [("topic", VStr "Favorite food");
        ("prompt_ko", VStr "What do you like to eat?");
        ("prompt_ru", VStr "Talk about your favorite food.")].

Definition sample_evaluation : JsVal :=
  VObj [("score", VNum (of_Z 7));
        ("per_question", VArr [VObj [("number", VNum (of_Z 1)); ("correct", VBool true);
                                     ("comment", VStr "Right.")]]);
        ("overall_feedback", VStr "Well done.")].

Definition sample_speaking_evaluation : JsVal :=
  VObj [("score", VNum (of_Z 8)); ("feedback", VStr "Clear.");
        ("sample_answer_ko", VStr "I like kimchi.")].

Definition sample_chat_reply : JsVal :=
  VObj [("korean", VStr "Hello!"); ("english_translation", VStr "Hello!");
        ("corrections", VArr [])].

Definition sample_transcription : JsVal := VObj [("text", VStr " I like kimchi. ")].

Definition cooperative : Oracle :=
  fun X n c =>
    match c in Call X return Outcome X with
    | ctx_reply _ => Returned tt
    | ctx_answerCbQuery => Returned tt
    | ctx_getFileLink file_id => Returned ("https://files/" +:+ file_id)
    | responses_create (PGenerateReading _) => Returned sample_exercise
    | responses_create (PEvaluateReading _ _ _ _) => Returned sample_evaluation
    | responses_create (PGenerateSpeaking _) => Returned sample_speaking_exercise
    | responses_create (PEvaluateSpeaking _ _ _ _ _) => Returned sample_speaking_evaluation
    | responses_create (PFreeChat _ _) => Returned sample_chat_reply
    | audio_speech_create _ => Returned []
    | audio_transcriptions_create _ => Returned sample_transcription
    | fetch _ => Returned {| ok := true |}
    | res_arrayBuffer => Returned []
    | fs_mkdir _ => Returned tt
    | Date_now => Returned 1700000000000
    | fs_writeFile _ _ => Returned tt
    | ffmpeg_save _ _ => Returned tt
    | fs_unlink _ => Returned tt
    end.

Definition failing_at (k : nat) (o : Oracle) : Oracle :=
  fun X n c => if Nat.eqb n k then Thrown ExternalFailure else o X n c.

Definition answering_at (k : nat) (v : JsVal) (o : Oracle) : Oracle :=
  fun X n c =>
    match c in Call X return Outcome X with
    | responses_create p =>
        if Nat.eqb n k then Returned v else o JsVal n (responses_create p)
    | c' => o _ n c'
    end.

Definition fresh_world : World := mkWorld createEmptySession ∅ 0 [].

(** ** The order of binary64 values

    [SFcompare] is a lexicographic comparison: first the class (negative
    infinity, negative, zero, positive, positive infinity), then the
    exponent, then the mantissa. [key] makes the three components explicit,
    which turns a comparison into linear arithmetic over [Z]. *)

Definition key (x : number) : option (Z * Z * Z) :=
  match x with
  | S754_nan => None
  | S754_infinity true => Some (-2, 0, 0)
  | S754_finite true m e => Some (-1, - e, - Zpos m)
  | S754_zero _ => Some (0, 0, 0)
  | S754_finite false m e => Some (1, e, Zpos m)
  | S754_infinity false => Some (2, 0, 0)
  end.

Definition lex3 (a b : Z * Z * Z) : comparison :=
  match a, b with
  | (a1, a2, a3), (b1, b2, b3) =>
      match a1 ?= b1 with
      | Eq => match a2 ?= b2 with
              | Eq => a3 ?= b3
              | c => c
              end
      | c => c
      end
  end.

Definition lt3 (a b : Z * Z * Z) : Prop :=
  match a, b with
  | (a1, a2, a3), (b1, b2, b3) =>
      a1 < b1 \/ (a1 = b1 /\ (a2 < b2 \/ (a2 = b2 /\ a3 < b3)))
  end.

Definition le3 (a b : Z * Z * Z) : Prop :=
  match a, b with
  | (a1, a2, a3), (b1, b2, b3) =>
      a1 < b1 \/ (a1 = b1 /\ (a2 < b2 \/ (a2 = b2 /\ a3 <= b3)))
  end.

(** ** The progress bar of the specification

    In the words of the specification, on exact rationals:
    [filled = round (clampedTotal / 500 * blocks)] and
    [empty = blocks - filled], where [round] is the nearest integer and a
    tie goes up. *)

Definition round_nearest (q : Q) : Z := Qfloor (q + (1 # 2))%Q.

Definition progressBar (clampedTotal blocks : Z) : Z * Z :=
  let filled := round_nearest (inject_Z clampedTotal / inject_Z 500 * inject_Z blocks)%Q in
  (filled, blocks - filled).

Definition bar_of_counts (counts : Z * Z) : string :=
  repeat_string "⬛" (Z.to_nat (fst counts)) +:+ repeat_string "⬜" (Z.to_nat (snd counts)).

Definition bar_agrees (t : Z) : bool :=
  match buildProgressBar (of_Z t) with
  | Returned s =>
      String.eqb s (bar_of_counts (progressBar t 10))
      && (0 <=? fst (progressBar t 10)) && (fst (progressBar t 10) <=? 10)
  | Thrown _ => false
  end.

(** ** Vocabulary of the statements *)

(** An event of the audio pipeline: no request to the generative gateway,
    and the session as it was. *)
Definition quiet (s : Session) (ev : Event) : Prop :=
  call_prompt (ev_call ev) = None /\ ev_session ev = s.




(** Every stored session satisfies [I]. *)
Definition store_ok (I : Session -> Prop) (ss : gmap Z Session) : Prop :=
  forall userId s, ss !! userId = Some s -> I s.

(** The stored total is not below zero. *)
Definition total_not_negative (s : Session) : Prop :=
  forall st, stats s = Some st -> ltb (totalScore st) n0 = false.

(** A user in the middle of a reading exercise, and one who owes a voice
    note. *)
Definition pending_reading : World :=
  mkWorld (set_reading {| state := waiting_for_answers; exercise := sample_exercise |}
             (set_practiceType (Some reading) createEmptySession)) ∅ 0 [].


(** A gateway whose third answer, the generated exercise of a freshly chosen
    mode, is the JSON text [null]. *)
Definition null_generator : Oracle := answering_at 2 VNull cooperative.

(** ** Running a handler: weakest preconditions *)

Definition wp {A} (m : M A) (o : Oracle) (w : World)
    (Q : Outcome A -> World -> Prop) : Prop :=
  Q (result m o w) (exec m o w).

Definition after_call (w : World) {X} (c : Call X) : World :=
  mkWorld (session w) (files w) (S (clock w))
          (trace w ++ [mkEvent (clock w) (any_call c) (session w)]).


(** ** Vocabulary of the further properties *)

(** Structural equality of binary64 values. *)
Definition number_eqb (x y : number) : bool :=
  match x, y with
  | S754_zero s, S754_zero s' => Bool.eqb s s'
  | S754_infinity s, S754_infinity s' => Bool.eqb s s'
  | S754_nan, S754_nan => true
  | S754_finite s m e, S754_finite s' m' e' => Bool.eqb s s' && Pos.eqb m m' && Z.eqb e e'
  | _, _ => false
  end.

(** Adding the integer [d] to the integer total [t] stores the integer
    [max 0 (t + d)]. *)
Definition score_exact (t d : Z) : bool :=
  match stats (addScoreToStats (set_stats (Some {| totalScore := of_Z t |}) createEmptySession)
                               (of_Z d)) with
  | Some st => number_eqb (totalScore st) (of_Z (Z.max 0 (t + d)))
  | None => false
  end.



(** The level the store holds for a user; a user without a session has none,
    like a fresh session. *)
Definition stored_level (userId : Z) (b : Bot) : option string :=
  s ← sessions b !! userId; level s.

(** * Properties *)

(** ** Trimming *)

(** [trim] strips each of the white space code points at both ends and
    keeps it inside the text; U+200B, which is not white space, stays. *)
Lemma trim_strips_white_space (c : string) :
  c ∈ white_space_code_points ->
  trim (c +:+ "a" +:+ c +:+ "b" +:+ c) = "a" +:+ c +:+ "b" /\ trim c = "".
Proof.
  intros H. unfold white_space_code_points in H. cbn in H.
  repeat (apply elem_of_cons in H as [->|H]; [split; reflexivity|]).
  apply elem_of_nil in H. destruct H.
Qed.

Lemma trim_keeps_zero_width_space :
  let zwsp := String.string_of_list_ascii (map Ascii.ascii_of_nat [226; 128; 139]%nat) in
  trim (zwsp +:+ "a" +:+ zwsp) = zwsp +:+ "a" +:+ zwsp.
Proof. reflexivity. Qed.

(** ** Comparing binary64 values through their keys *)

Lemma lex3_spec (a b : Z * Z * Z) : CompareSpec (a = b) (lt3 a b) (lt3 b a) (lex3 a b).
Proof.
  destruct a as [[a1 a2] a3], b as [[b1 b2] b3]; unfold lex3, lt3.
  destruct (Z.compare_spec a1 b1); [|constructor; lia|constructor; lia].
  destruct (Z.compare_spec a2 b2); [|constructor; lia|constructor; lia].
  destruct (Z.compare_spec a3 b3); constructor; subst; auto; lia.
Qed.

Lemma SFcompare_key (x y : number) :
  SFcompare x y =
  match key x, key y with
  | Some a, Some b => Some (lex3 a b)
  | _, _ => None
  end.
Proof.
  destruct x as [[]|[]| |[] mx ex], y as [[]|[]| |[] my ey]; try reflexivity;
    unfold SFcompare, key, lex3; cbn [Z.compare].
  change (CompOpp (1 ?= 1)%positive) with Eq. cbv iota.
  rewrite Z.compare_opp, (Z.compare_antisym ex ey).
  destruct (ex ?= ey); cbn [CompOpp]; try reflexivity.
Qed.

Lemma lt3_irrefl (a : Z * Z * Z) : ~ lt3 a a.
Proof. destruct a as [[]]; unfold lt3; lia. Qed.

Lemma lt3_asym (a b : Z * Z * Z) : lt3 a b -> ~ lt3 b a.
Proof. destruct a as [[]], b as [[]]; unfold lt3; lia. Qed.

Lemma lt3_trans (a b c : Z * Z * Z) : lt3 a b -> lt3 b c -> lt3 a c.
Proof. destruct a as [[]], b as [[]], c as [[]]; unfold lt3; lia. Qed.

(** [x < y] and [x <= y] through keys. *)

Lemma ltb_key (x y : number) (a b : Z * Z * Z) :
  key x = Some a -> key y = Some b -> (ltb x y = true <-> lt3 a b).
Proof.
  intros Hx Hy. unfold ltb, SFltb. rewrite SFcompare_key, Hx, Hy.
  destruct (lex3_spec a b) as [->|H|H]; split; try discriminate; auto.
  - intros H; destruct (lt3_irrefl _ H).
  - intros H'; destruct (lt3_asym _ _ H H').
Qed.

Lemma ltb_false_key (x y : number) (a b : Z * Z * Z) :
  key x = Some a -> key y = Some b -> (ltb x y = false <-> le3 b a).
Proof.
  intros Hx Hy. unfold ltb, SFltb. rewrite SFcompare_key, Hx, Hy.
  destruct (lex3_spec a b) as [E|H|H]; split; try discriminate; auto; try subst;
    repeat match goal with x : (Z * Z * Z)%type |- _ => destruct x as [[]] end;
    unfold lt3, le3 in *; lia.
Qed.

Lemma leb_key (x y : number) (a b : Z * Z * Z) :
  key x = Some a -> key y = Some b -> (leb x y = true <-> le3 a b).
Proof.
  intros Hx Hy. unfold leb, SFleb. rewrite SFcompare_key, Hx, Hy.
  destruct (lex3_spec a b) as [E|H|H]; split; try discriminate; auto; try subst;
    repeat match goal with x : (Z * Z * Z)%type |- _ => destruct x as [[]] end;
    unfold lt3, le3 in *; lia.
Qed.

Lemma leb_true_key (x y : number) :
  leb x y = true -> exists a b, key x = Some a /\ key y = Some b /\ le3 a b.
Proof.
  intros H. assert (H' := H). revert H'. unfold leb, SFleb. rewrite SFcompare_key.
  destruct (key x) as [a|] eqn:Hx, (key y) as [b|] eqn:Hy; try discriminate.
  intros _. exists a, b. repeat split. apply (leb_key x y); auto.
Qed.

Lemma le3_lt3_false (a b : Z * Z * Z) : le3 a b -> lt3 b a -> False.
Proof. destruct a as [[]], b as [[]]; unfold lt3, le3; lia. Qed.

(** [Math.min] and [Math.max] do not move a value that is already on the
    right side of the bound (up to the sign of a zero). *)

Lemma key_Math_min (x y : number) : leb y x = true -> key (Math_min x y) = key y.
Proof.
  intros (b & a & Hy & Hx & Hle)%leb_true_key.
  unfold Math_min. rewrite SFcompare_key, Hx, Hy.
  destruct (lex3_spec a b) as [->|H|H].
  - destruct x as [[]| | |]; congruence.
  - destruct (le3_lt3_false _ _ Hle H).
  - congruence.
Qed.

Lemma key_Math_max (x y : number) : leb x y = true -> key (Math_max x y) = key y.
Proof.
  intros (a & b & Hx & Hy & Hle)%leb_true_key.
  unfold Math_max. rewrite SFcompare_key, Hx, Hy.
  destruct (lex3_spec a b) as [->|H|H].
  - destruct x as [[]| | |]; congruence.
  - congruence.
  - destruct (le3_lt3_false _ _ Hle H).
Qed.

Lemma ltb_same_key (x y c : number) : key x = key y -> ltb x c = ltb y c.
Proof. intros H. unfold ltb, SFltb. rewrite !SFcompare_key, H. reflexivity. Qed.

Lemma leb_same_key (x y c : number) : key x = key y -> leb x c = leb y c.
Proof. intros H. unfold leb, SFleb. rewrite !SFcompare_key, H. reflexivity. Qed.

Lemma key_n0 : key n0 = Some (0, 0, 0).
Proof. reflexivity. Qed.
Lemma key_n100 : key n100 = Some (1, -46, 7036874417766400).
Proof. vm_compute. reflexivity. Qed.
Lemma key_n200 : key n200 = Some (1, -45, 7036874417766400).
Proof. vm_compute. reflexivity. Qed.
Lemma key_n300 : key n300 = Some (1, -44, 5277655813324800).
Proof. vm_compute. reflexivity. Qed.
Lemma key_n400 : key n400 = Some (1, -44, 7036874417766400).
Proof. vm_compute. reflexivity. Qed.
Lemma key_n500 : key n500 = Some (1, -44, 8796093022208000).
Proof. vm_compute. reflexivity. Qed.

Lemma clamp_key (t : number) :
  leb n0 t = true -> leb t n500 = true -> key (Math_max n0 (Math_min n500 t)) = key t.
Proof.
  intros H0 H5. rewrite key_Math_max.
  - apply key_Math_min, H5.
  - unfold leb, SFleb in *. rewrite SFcompare_key in *. rewrite key_Math_min by (unfold leb, SFleb; rewrite SFcompare_key; exact H5). exact H0.
Qed.

Lemma tier_bands_aux (t : number) :
  leb n0 t = true -> leb t n500 = true ->
  (getRamyunLevelMeta t = ramyun_mild <-> ltb t n100 = true) /\
  (getRamyunLevelMeta t = ramyun_original <-> leb n100 t = true /\ ltb t n200 = true) /\
  (getRamyunLevelMeta t = ramyun_spicy <-> leb n200 t = true /\ ltb t n300 = true) /\
  (getRamyunLevelMeta t = ramyun_very_spicy <-> leb n300 t = true /\ ltb t n400 = true) /\
  (getRamyunLevelMeta t = ramyun_nuclear <-> leb n400 t = true).
Proof.
  intros H0 H5. unfold getRamyunLevelMeta.
  rewrite (ltb_same_key _ t n100), (ltb_same_key _ t n200), (ltb_same_key _ t n300),
          (ltb_same_key _ t n400) by (apply clamp_key; assumption).
  destruct (leb_true_key _ _ H0) as (z & a & Hz & Ha & _).
  rewrite (leb_key _ _ _ _ Ha key_n500) in H5.
  rewrite (leb_key _ _ _ _ key_n0 Ha) in H0.
  rewrite !(leb_key _ _ _ _ key_n100 Ha), !(leb_key _ _ _ _ key_n200 Ha),
          !(leb_key _ _ _ _ key_n300 Ha), !(leb_key _ _ _ _ key_n400 Ha).
  destruct (ltb t n100) eqn:E1; [|destruct (ltb t n200) eqn:E2; [|destruct (ltb t n300) eqn:E3; [|destruct (ltb t n400) eqn:E4]]].
  all: rewrite ?(ltb_key _ _ _ _ Ha key_n100), ?(ltb_key _ _ _ _ Ha key_n200),
         ?(ltb_key _ _ _ _ Ha key_n300), ?(ltb_key _ _ _ _ Ha key_n400),
         ?(ltb_false_key _ _ _ _ Ha key_n100), ?(ltb_false_key _ _ _ _ Ha key_n200),
         ?(ltb_false_key _ _ _ _ Ha key_n300), ?(ltb_false_key _ _ _ _ Ha key_n400) in *.
  all: destruct a as [[a1 a2] a3]; unfold lt3, le3 in *.
  all: repeat split; intros; try reflexivity;
       try match goal with H : _ = _ :> RamyunLevel |- _ => discriminate H end;
       try lia.
Qed.

Lemma bar_agrees_upto_500 : forallb bar_agrees (map Z.of_nat (seq 0 501)) = true.
Proof. vm_compute. reflexivity. Qed.

(** C9. For every integer total [t] in [0, 500], [buildProgressBar] returns
    [filled] black blocks followed by [empty] white blocks, where
    [filled = round (t / 500 * 10)] computed on exact rationals and
    [empty = 10 - filled]; the binary64 arithmetic of the source never
    disagrees with the exact one on this range. In particular 250 gives
    (5, 5), 0 gives (0, 10) and 500 gives (10, 0). *)
Theorem C9_progressBar (t : Z) :
  0 <= t <= 500 ->
  buildProgressBar (of_Z t) = Returned (bar_of_counts (progressBar t 10))
  /\ 0 <= fst (progressBar t 10) <= 10
  /\ snd (progressBar t 10) = 10 - fst (progressBar t 10)
  /\ progressBar 250 10 = (5, 5)
  /\ progressBar 0 10 = (0, 10)
  /\ progressBar 500 10 = (10, 0).
Proof.
  intros Ht.
  assert (Hin : In t (map Z.of_nat (seq 0 501))).
  { apply in_map_iff. exists (Z.to_nat t). split; [lia|]. apply in_seq. lia. }
  pose proof (proj1 (forallb_forall _ _) bar_agrees_upto_500 t Hin) as H.
  unfold bar_agrees in H.
  destruct (buildProgressBar (of_Z t)) as [s|]; [|discriminate].
  apply andb_prop in H as [H H3]. apply andb_prop in H as [H1 H2].
  apply String.eqb_eq in H1. subst s.
  repeat split; try reflexivity; lia.
Qed.

Lemma or_zero_add (t d : number) :
  is_nan t = false -> isFinite d = true ->
  Math_max n0 (add (or_zero t) d) = Math_max n0 (add t d).
Proof.
  destruct t as [[]|[]| |[] mt et], d as [[]|[]| |[] md ed]; try discriminate; reflexivity.
Qed.

Lemma Math_max_zero_not_negative (u : number) : ltb (Math_max n0 u) n0 = false.
Proof.
  unfold Math_max. rewrite SFcompare_key.
  destruct (key u) as [b|] eqn:Hu; cbn [key n0 zero]; [|reflexivity].
  destruct (lex3_spec (0, 0, 0) b) as [E|H|H]; try reflexivity.
  apply (ltb_false_key u n0 b (0, 0, 0)); auto.
  destruct b as [[]]; unfold lt3, le3 in *; lia.
Qed.

Lemma addScoreToStats_present (s : Session) (st : Stats) (d : number) :
  stats s = Some st ->
  addScoreToStats s d =
  if isFinite d
  then set_stats (Some {| totalScore := Math_max n0 (add (or_zero (totalScore st)) d) |}) s
  else s.
Proof.
  intros Hs. unfold addScoreToStats. rewrite Hs. cbv zeta. unfold total_of. rewrite Hs.
  destruct (isFinite d); reflexivity.
Qed.

(** C5. With a running total [t] (any number but NaN) stored in the session,
    [addScoreToStats] with a finite delta [d] stores [max(0, t + d)]; with a
    delta that is not finite (NaN or an infinity) it leaves the session as it
    is; and the stored total is never below zero afterwards, as soon as the
    delta was applied or the total was not negative before. *)
Theorem C5_applyDelta (s : Session) (t d : number) :
  stats s = Some {| totalScore := t |} -> is_nan t = false ->
  (isFinite d = true ->
     addScoreToStats s d = set_stats (Some {| totalScore := Math_max n0 (add t d) |}) s)
  /\ (isFinite d = false -> addScoreToStats s d = s)
  /\ (isFinite d = true \/ ltb t n0 = false ->
      exists t', stats (addScoreToStats s d) = Some {| totalScore := t' |}
                 /\ ltb t' n0 = false).
Proof.
  intros Hs Ht. rewrite (addScoreToStats_present _ _ d Hs). cbn [totalScore].
  repeat split.
  - intros Hd. rewrite Hd, or_zero_add by auto. reflexivity.
  - intros ->. reflexivity.
  - destruct (isFinite d) eqn:Hd.
    + intros _. eexists. split; [reflexivity|]. apply Math_max_zero_not_negative.
    + intros [?|H]; [discriminate|]. exists t. split; assumption.
Qed.

(** C8. On the clamped range [0, 500] the tier is decided by five contiguous
    bands: Mild on [0, 100), Original on [100, 200), Spicy on [200, 300),
    Very Spicy on [300, 400) and Nuclear on [400, 500]. The five tiers are
    pairwise distinct, 99 and 100 fall in different tiers, and 500 itself is
    Nuclear. The statement holds for every binary64 score, not only for
    integers. *)
Theorem C8_tier_bands (t : number) :
  leb n0 t = true -> leb t n500 = true ->
  (getRamyunLevelMeta t = ramyun_mild <-> ltb t n100 = true)
  /\ (getRamyunLevelMeta t = ramyun_original <-> leb n100 t = true /\ ltb t n200 = true)
  /\ (getRamyunLevelMeta t = ramyun_spicy <-> leb n200 t = true /\ ltb t n300 = true)
  /\ (getRamyunLevelMeta t = ramyun_very_spicy <-> leb n300 t = true /\ ltb t n400 = true)
  /\ (getRamyunLevelMeta t = ramyun_nuclear <-> leb n400 t = true)
  /\ NoDup [ramyun_mild; ramyun_original; ramyun_spicy; ramyun_very_spicy; ramyun_nuclear]
  /\ getRamyunLevelMeta (of_Z 99) <> getRamyunLevelMeta (of_Z 100)
  /\ getRamyunLevelMeta n500 = ramyun_nuclear.
Proof.
  intros H0 H5.
  destruct (tier_bands_aux t H0 H5) as (H1 & H2 & H3 & H4 & H6).
  repeat (split; [assumption|]).
  split; [|split; [vm_compute; discriminate | vm_compute; reflexivity]].
  repeat (apply NoDup_cons; split;
          [rewrite ?elem_of_cons, elem_of_nil; intros H; intuition discriminate|]).
  apply NoDup_nil_2.
Qed.

(** C8 at 250, in the middle of the third band. *)
Lemma C8_tier_bands_witness :
  getRamyunLevelMeta (of_Z 250) = ramyun_spicy <->
  leb n200 (of_Z 250) = true /\ ltb (of_Z 250) n300 = true.
Proof.
  apply (C8_tier_bands (of_Z 250)); vm_compute; reflexivity.
Defined.

(** C9 at the midpoint: half of the bar is filled. *)
Lemma C9_progressBar_witness :
  buildProgressBar (of_Z 250) = Returned (bar_of_counts (progressBar 250 10)).
Proof.
  apply (C9_progressBar 250). lia.
Defined.

(** C5 on a fresh session: a delta of -5 leaves the total at 0. *)
Lemma C5_applyDelta_witness :
  stats (addScoreToStats createEmptySession (of_Z (-5))) = Some {| totalScore := n0 |}.
Proof.
  rewrite (proj1 (C5_applyDelta createEmptySession n0 (of_Z (-5)) eq_refl eq_refl))
    by (vm_compute; reflexivity).
  vm_compute. reflexivity.
Defined.

(** ** Rules of the weakest precondition *)

Section WpRules.
Context {A B : Type} (o : Oracle) (w : World).

Lemma wp_mret (a : A) Q : Q (Returned a) w -> wp (mret a) o w Q.
Proof. exact id. Qed.

Lemma wp_ret (a : A) Q : Q (Returned a) w -> wp (ret a) o w Q.
Proof. exact id. Qed.

Lemma wp_throw (e : Exn) (Q : Outcome A -> World -> Prop) :
  Q (Thrown e) w -> wp (throw e) o w Q.
Proof. exact id. Qed.

Lemma wp_lift (x : Outcome A) Q : Q x w -> wp (lift x) o w Q.
Proof. exact id. Qed.

Lemma wp_bind (m : M A) (k : A -> M B) Q :
  wp m o w (fun r w' => match r with
                        | Returned a => wp (k a) o w' Q
                        | Thrown e => Q (Thrown e) w'
                        end) ->
  wp (m ≫= k) o w Q.
Proof.
  unfold wp, result, exec, mbind, M_bind, bind.
  destruct (m o w) as [[a|e] w']; exact id.
Qed.

Lemma wp_try_catch (body : M A) (handler : Exn -> M A) Q :
  wp body o w (fun r w' => match r with
                           | Returned a => Q (Returned a) w'
                           | Thrown e => wp (handler e) o w' Q
                           end) ->
  wp (try_catch body handler) o w Q.
Proof.
  unfold wp, result, exec, try_catch. destruct (body o w) as [[a|e] w']; exact id.
Qed.

Lemma wp_call {X} (c : Call X) Q :
  Q (o X (clock w) c) (after_call w c) -> wp (call c) o w Q.
Proof. exact id. Qed.

Lemma wp_get_session Q : Q (Returned (session w)) w -> wp get_session o w Q.
Proof. exact id. Qed.

Lemma wp_modify_session f Q :
  Q (Returned tt) (mkWorld (f (session w)) (files w) (clock w) (trace w)) ->
  wp (modify_session f) o w Q.
Proof. exact id. Qed.

Lemma wp_modify_files f Q :
  Q (Returned tt) (mkWorld (session w) (f (files w)) (clock w) (trace w)) ->
  wp (modify_files f) o w Q.
Proof. exact id. Qed.

Lemma wp_mono (m : M A) (Q Q' : Outcome A -> World -> Prop) :
  wp m o w Q -> (forall r w', Q r w' -> Q' r w') -> wp m o w Q'.
Proof. unfold wp. auto. Qed.
End WpRules.

(** [addScoreToStats] only writes [stats]. *)
Lemma addScoreToStats_modes (s : Session) (n : number) :
  level (addScoreToStats s n) = level s
  /\ practiceType (addScoreToStats s n) = practiceType s
  /\ readingMode (addScoreToStats s n) = readingMode s
  /\ listeningMode (addScoreToStats s n) = listeningMode s
  /\ speakingMode (addScoreToStats s n) = speakingMode s.
Proof.
  unfold addScoreToStats. destruct (stats s), (isFinite n); repeat split.
Qed.

Lemma speakingMode_addScoreToStats (s : Session) (n : number) :
  speakingMode (addScoreToStats s n) = speakingMode s.
Proof. apply addScoreToStats_modes. Qed.
Lemma readingMode_addScoreToStats (s : Session) (n : number) :
  readingMode (addScoreToStats s n) = readingMode s.
Proof. apply addScoreToStats_modes. Qed.
Lemma listeningMode_addScoreToStats (s : Session) (n : number) :
  listeningMode (addScoreToStats s n) = listeningMode s.
Proof. apply addScoreToStats_modes. Qed.
Lemma level_addScoreToStats (s : Session) (n : number) :
  level (addScoreToStats s n) = level s.
Proof. apply addScoreToStats_modes. Qed.
Lemma practiceType_addScoreToStats (s : Session) (n : number) :
  practiceType (addScoreToStats s n) = practiceType s.
Proof. apply addScoreToStats_modes. Qed.

Ltac session_simpl :=
  repeat (progress
    (rewrite ?speakingMode_addScoreToStats, ?readingMode_addScoreToStats,
             ?listeningMode_addScoreToStats, ?level_addScoreToStats,
             ?practiceType_addScoreToStats;
     cbn [session files clock trace after_call
          level practiceType stats readingMode listeningMode speakingMode
          state exercise speaking_state speaking_exercise lastTranscript
          set_level set_practiceType set_stats set_reading set_listening set_speaking
          set_state set_exercise set_speaking_state set_speaking_exercise
          set_lastTranscript])).

Create HintDb handlers.
#[global] Hint Unfold generateReadingExercise evaluateReadingAnswers ttsFromKoreanText
  generateFreeChatReply generateSpeakingExercise evaluateSpeakingResponse
  apply_score format_result read_each format_free_chat
  fire_and_forget
  startReadingExercise handleReadingAnswers startListeningExercise
  handleListeningAnswers startFreeChat handleFreeChatMessage startSpeakingExercise
  handlePracticeChoice on_READING_NEXT on_LISTENING_NEXT on_SPEAKING_NEXT
  on_CHANGE_MODE_INLINE on_LEVEL on_CHANGE_LEVEL_TEXT on_CHANGE_MODE_TEXT
  on_SHOW_PROGRESS_TEXT on_start on_text on_voice : handlers.

(** Symbolic execution: follow the handler call by call, splitting on what
    the oracle answers unless a hypothesis already tells. *)
Ltac wp_prune E :=
  try (cbn in E;
       repeat match goal with
              | H : ?a = _ |- _ =>
                  lazymatch H with
                  | E => fail
                  | _ => lazymatch type of E with context [a] => rewrite H in E end
                  end
              end;
       cbn in E; discriminate E).

Ltac wp_case x :=
  first [ match goal with H : x = _ |- _ => rewrite H end
        | let x' := eval hnf in x in
          lazymatch x' with
          | Returned _ => change x with x'
          | Thrown _ => change x with x'
          | true => change x with x'
          | false => change x with x'
          end
        | let E := fresh "E" in destruct x eqn:E; wp_prune E ].

Ltac wp_step :=
  lazymatch goal with
  | |- wp (_ ≫= _) _ _ _ => apply wp_bind
  | |- wp (try_catch _ _) _ _ _ => apply wp_try_catch
  | |- wp (call _) _ _ _ => apply wp_call
  | |- wp (lift _) _ _ _ => apply wp_lift
  | |- wp (mret _) _ _ _ => apply wp_mret
  | |- wp (ret _) _ _ _ => apply wp_ret
  | |- wp (throw _) _ _ _ => apply wp_throw
  | |- wp get_session _ _ _ => apply wp_get_session
  | |- wp (modify_session _) _ _ _ => apply wp_modify_session
  | |- wp (modify_files _) _ _ _ => apply wp_modify_files
  | |- wp (transcribeAudioFromUrl _) _ _ _ => fail
  | |- wp (if ?b then _ else _) _ _ _ => wp_case b
  | |- wp (match ?x with _ => _ end) _ _ _ => wp_case x
  | |- wp _ _ _ _ => progress autounfold with handlers
  | |- match ?x with Returned _ => _ | Thrown _ => _ end => wp_case x
  end; cbn beta iota; session_simpl.

Ltac wp_run := repeat wp_step.

(** The events a run appended, once the trace is a chain of appends. *)
Lemma new_events_app (w : World) (t : list Event) (evs : list Event) :
  t = trace w ++ evs ->
  drop (length (trace w)) t = evs.
Proof. intros ->. apply drop_app_length. Qed.

Ltac new_events :=
  unfold new_events; cbn [session files clock trace after_call];
  erewrite new_events_app by (rewrite <- ?app_assoc; reflexivity).

(** ** The audio pipeline *)

(** C1 (failing input for the claim that both scratch files are deleted on
    every exit path). Once the download has been written to disk, a
    rejection of the transcode leaves the .oga file behind, and a rejection
    of the transcription service after a successful transcode leaves both
    the .oga and the .mp3 file behind; on neither path does
    [transcribeAudioFromUrl] issue a single [unlink]. *)
Theorem C1_scratch_files_leak (o : Oracle) (w : World) (fileUrl : string)
    (buf : Buffer) (ts : Z) (e : Exn) :
  let n := clock w in
  o _ n (fetch fileUrl) = Returned {| ok := true |} ->
  o _ (n + 1)%nat res_arrayBuffer = Returned buf ->
  o _ (n + 2)%nat (fs_mkdir "tmp") = Returned tt ->
  o _ (n + 3)%nat Date_now = Returned ts ->
  o _ (n + 4)%nat (fs_writeFile (oggPath_of ts) buf) = Returned tt ->
  let w' := exec (transcribeAudioFromUrl fileUrl) o w in
  (o _ (n + 5)%nat (ffmpeg_save (oggPath_of ts) (mp3Path_of ts)) = Thrown e ->
     result (transcribeAudioFromUrl fileUrl) o w = Thrown e
     /\ oggPath_of ts ∈ files w'
     /\ Forall (fun ev => call_unlink (ev_call ev) = None) (new_events w w'))
  /\ (o _ (n + 5)%nat (ffmpeg_save (oggPath_of ts) (mp3Path_of ts)) = Returned tt ->
      o _ (n + 6)%nat (audio_transcriptions_create (mp3Path_of ts)) = Thrown e ->
      result (transcribeAudioFromUrl fileUrl) o w = Thrown e
      /\ oggPath_of ts ∈ files w'
      /\ mp3Path_of ts ∈ files w'
      /\ Forall (fun ev => call_unlink (ev_call ev) = None) (new_events w w')).
Proof.
  intros n H0 H1 H2 H3 H4 w'. subst n w'.
  replace (clock w + 1)%nat with (S (clock w)) in * by lia.
  replace (clock w + 2)%nat with (S (S (clock w))) in * by lia.
  replace (clock w + 3)%nat with (S (S (S (clock w)))) in * by lia.
  replace (clock w + 4)%nat with (S (S (S (S (clock w))))) in * by lia.
  replace (clock w + 5)%nat with (S (S (S (S (S (clock w)))))) in * by lia.
  replace (clock w + 6)%nat with (S (S (S (S (S (S (clock w))))))) in * by lia.
  split.
  - intros H5.
    change (wp (transcribeAudioFromUrl fileUrl) o w (fun r w' =>
      r = Thrown e /\ oggPath_of ts ∈ files w'
      /\ Forall (fun ev => call_unlink (ev_call ev) = None) (new_events w w'))).
    unfold transcribeAudioFromUrl. wp_run.
    split; [reflexivity|]. split; [set_solver|].
    new_events. repeat constructor.
  - intros H5 H6.
    change (wp (transcribeAudioFromUrl fileUrl) o w (fun r w' =>
      r = Thrown e /\ oggPath_of ts ∈ files w' /\ mp3Path_of ts ∈ files w'
      /\ Forall (fun ev => call_unlink (ev_call ev) = None) (new_events w w'))).
    unfold transcribeAudioFromUrl. wp_run.
    split; [reflexivity|]. split; [set_solver|]. split; [set_solver|].
    new_events. repeat constructor.
Qed.

(** X24. On the success path the trimmed text is returned and both deletions
    are started: the run consists of the seven awaited calls followed by the
    two [unlink] calls, whatever these two answer. *)
Lemma transcribeAudioFromUrl_success_cleans_up (o : Oracle) (w : World) (fileUrl : string)
    (buf : Buffer) (ts : Z) (fields : list (string * JsVal)) (text : string) :
  let n := clock w in
  o _ n (fetch fileUrl) = Returned {| ok := true |} ->
  o _ (S n) res_arrayBuffer = Returned buf ->
  o _ (S (S n)) (fs_mkdir "tmp") = Returned tt ->
  o _ (S (S (S n))) Date_now = Returned ts ->
  o _ (S (S (S (S n)))) (fs_writeFile (oggPath_of ts) buf) = Returned tt ->
  o _ (S (S (S (S (S n))))) (ffmpeg_save (oggPath_of ts) (mp3Path_of ts)) = Returned tt ->
  o _ (S (S (S (S (S (S n)))))) (audio_transcriptions_create (mp3Path_of ts))
    = Returned (VObj fields) ->
  own_property fields "text" = VStr text ->
  String.eqb text "" = false ->
  result (transcribeAudioFromUrl fileUrl) o w = Returned (trim text)
  /\ new_events w (exec (transcribeAudioFromUrl fileUrl) o w)
     = map (fun '(k, c) => mkEvent (k + n) c (session w))
           [(0, any_call (fetch fileUrl));
            (1, any_call res_arrayBuffer);
            (2, any_call (fs_mkdir "tmp"));
            (3, any_call Date_now);
            (4, any_call (fs_writeFile (oggPath_of ts) buf));
            (5, any_call (ffmpeg_save (oggPath_of ts) (mp3Path_of ts)));
            (6, any_call (audio_transcriptions_create (mp3Path_of ts)));
            (7, any_call (fs_unlink (oggPath_of ts)));
            (8, any_call (fs_unlink (mp3Path_of ts)))]%nat.
Proof.
  intros n H0 H1 H2 H3 H4 H5 H6 Ht Hne. subst n.
  change (wp (transcribeAudioFromUrl fileUrl) o w (fun r w' =>
    r = Returned (trim text)
    /\ new_events w w'
       = map (fun '(k, c) => mkEvent (k + clock w) c (session w))
           [(0, any_call (fetch fileUrl));
            (1, any_call res_arrayBuffer);
            (2, any_call (fs_mkdir "tmp"));
            (3, any_call Date_now);
            (4, any_call (fs_writeFile (oggPath_of ts) buf));
            (5, any_call (ffmpeg_save (oggPath_of ts) (mp3Path_of ts)));
            (6, any_call (audio_transcriptions_create (mp3Path_of ts)));
            (7, any_call (fs_unlink (oggPath_of ts)));
            (8, any_call (fs_unlink (mp3Path_of ts)))]%nat)).
  unfold transcribeAudioFromUrl. wp_run.
  all: rewrite Ht in *; cbn [js_truthy] in *; rewrite Hne in *; cbn [negb] in *.
  all: simplify_eq.
  all: split; [reflexivity|]; new_events; reflexivity.
Qed.


(** C1 with a transcription service that rejects: both files remain. *)
Lemma C1_scratch_files_leak_witness :
  let o := failing_at 6 cooperative in
  let w' := exec (transcribeAudioFromUrl "https://files/voice") o fresh_world in
  result (transcribeAudioFromUrl "https://files/voice") o fresh_world = Thrown ExternalFailure
  /\ oggPath_of 1700000000000 ∈ files w'
  /\ mp3Path_of 1700000000000 ∈ files w'
  /\ Forall (fun ev => call_unlink (ev_call ev) = None) (new_events fresh_world w').
Proof.
  apply (C1_scratch_files_leak (failing_at 6 cooperative) fresh_world "https://files/voice"
           [] 1700000000000 ExternalFailure); reflexivity.
Defined.

(** ** Mode selection *)


(** C2 as stated fails: a user who owes answers to a reading exercise and
    selects the speaking mode still has [reading.state] at
    [waiting_for_answers], not [idle]. *)
Lemma C2_other_modes_not_reset :
  state (readingMode (session (exec (handlePracticeChoice speaking) cooperative pending_reading)))
  <> idle.
Proof. vm_compute. discriminate. Qed.

(** C2, amended. Selecting mode [type] sets [practiceType] to [type] and
    leaves the sub-records of all other modes (state, exercise, last
    transcript) exactly as they were, whatever the collaborators answer: the
    other modes are neither reset to idle nor cleared, so selecting the
    active mode again does not change them either. *)
Theorem C2_other_modes_untouched (o : Oracle) (w : World) (type : PracticeType) :
  let s' := session (exec (handlePracticeChoice type) o w) in
  practiceType s' = Some type
  /\ level s' = level (session w)
  /\ (type <> reading -> readingMode s' = readingMode (session w))
  /\ (type <> listening -> listeningMode s' = listeningMode (session w))
  /\ (type <> speaking -> speakingMode s' = speakingMode (session w)).
Proof.
  change (wp (handlePracticeChoice type) o w (fun _ w' =>
    practiceType (session w') = Some type
    /\ level (session w') = level (session w)
    /\ (type <> reading -> readingMode (session w') = readingMode (session w))
    /\ (type <> listening -> listeningMode (session w') = listeningMode (session w))
    /\ (type <> speaking -> speakingMode (session w') = speakingMode (session w)))).
  destruct type; wp_run; repeat split; intros; congruence.
Qed.

(** C2, amended, on the pending reading exercise. *)
Lemma C2_other_modes_untouched_witness :
  readingMode (session (exec (handlePracticeChoice speaking) cooperative pending_reading))
  = {| state := waiting_for_answers; exercise := sample_exercise |}.
Proof.
  apply (C2_other_modes_untouched cooperative pending_reading speaking). discriminate.
Defined.

(** ** Starting an exercise *)

Lemma startReadingExercise_generation_fails (o : Oracle) (w : World) (e : Exn) :
  o JsVal (clock w) (responses_create (PGenerateReading (level_or_default (level (session w)))))
    = Thrown e ->
  session (exec startReadingExercise o w) = session w.
Proof.
  intros H. change (wp startReadingExercise o w (fun _ w' => session w' = session w)).
  wp_run; reflexivity.
Qed.

Lemma startListeningExercise_generation_fails (o : Oracle) (w : World) (e : Exn) :
  o JsVal (clock w) (responses_create (PGenerateReading (level_or_default (level (session w)))))
    = Thrown e ->
  session (exec startListeningExercise o w) = session w.
Proof.
  intros H. change (wp startListeningExercise o w (fun _ w' => session w' = session w)).
  wp_run; reflexivity.
Qed.

Lemma startSpeakingExercise_generation_fails (o : Oracle) (w : World) (e : Exn) :
  o JsVal (clock w) (responses_create (PGenerateSpeaking (level_or_default (level (session w)))))
    = Thrown e ->
  session (exec startSpeakingExercise o w) = session w.
Proof.
  intros H. change (wp startSpeakingExercise o w (fun _ w' => session w' = session w)).
  wp_run; reflexivity.
Qed.

(** C3 (failing input for the claim that a failed start leaves the mode
    untouched). When the exercise is generated but the speech synthesis
    rejects, [startListeningExercise] has already stored the new exercise and
    set [listening.state] to [waiting_for_answers]; it then tells the user
    that the task could not be prepared. The calls of the run are exactly the
    generation, the synthesis and that notice. *)
Theorem C3_listening_tts_failure_keeps_new_exercise
    (o : Oracle) (w : World) (ex text : JsVal) (e : Exn) :
  o JsVal (clock w) (responses_create (PGenerateReading (level_or_default (level (session w)))))
    = Returned ex ->
  get_prop ex "text" = Returned text ->
  o Buffer (S (clock w)) (audio_speech_create text) = Thrown e ->
  listeningMode (session (exec startListeningExercise o w))
    = {| state := waiting_for_answers; exercise := ex |}
  /\ exists notice,
       new_events w (exec startListeningExercise o w)
       = [mkEvent (clock w)
            (any_call (responses_create (PGenerateReading (level_or_default (level (session w))))))
            (session w);
          mkEvent (S (clock w)) (any_call (audio_speech_create text)) notice;
          mkEvent (S (S (clock w))) (any_call (ctx_reply (MsgCouldNotPrepare listening))) notice].
Proof.
  intros H1 H2 H3.
  change (wp startListeningExercise o w (fun _ w' =>
    listeningMode (session w') = {| state := waiting_for_answers; exercise := ex |}
    /\ exists notice, new_events w w' =
       [mkEvent (clock w)
            (any_call (responses_create (PGenerateReading (level_or_default (level (session w))))))
            (session w);
          mkEvent (S (clock w)) (any_call (audio_speech_create text)) notice;
          mkEvent (S (S (clock w))) (any_call (ctx_reply (MsgCouldNotPrepare listening))) notice])).
  wp_run; (split; [reflexivity|]); eexists; new_events; reflexivity.
Qed.

(** C3 on a fresh session whose synthesis call rejects. *)
Lemma C3_listening_tts_failure_keeps_new_exercise_witness :
  listeningMode (session (exec startListeningExercise (failing_at 1 cooperative) fresh_world))
    = {| state := waiting_for_answers; exercise := sample_exercise |}.
Proof.
  apply (C3_listening_tts_failure_keeps_new_exercise (failing_at 1 cooperative) fresh_world
           sample_exercise (VStr "Minsu goes to the market every Saturday.") ExternalFailure);
    reflexivity.
Defined.

(** ** Submitting answers without an exercise *)

(** C6. When the stored exercise of the reading (listening) mode is absent,
    [handleReadingAnswers] ([handleListeningAnswers]) changes nothing in the
    session or on disk; its only call is the notice that there is no active
    task, no evaluation is requested, and its outcome is the outcome of that
    notice. *)
Theorem C6_no_active_exercise (o : Oracle) (w : World) (userAnswersText : string) :
  (js_truthy (exercise (readingMode (session w))) = false ->
     let w' := exec (handleReadingAnswers userAnswersText) o w in
     session w' = session w
     /\ files w' = files w
     /\ new_events w w'
        = [mkEvent (clock w) (any_call (ctx_reply (MsgNoActiveTask reading))) (session w)]
     /\ result (handleReadingAnswers userAnswersText) o w
        = o unit (clock w) (ctx_reply (MsgNoActiveTask reading)))
  /\ (js_truthy (exercise (listeningMode (session w))) = false ->
      let w' := exec (handleListeningAnswers userAnswersText) o w in
      session w' = session w
      /\ files w' = files w
      /\ new_events w w'
         = [mkEvent (clock w) (any_call (ctx_reply (MsgNoActiveTask listening))) (session w)]
      /\ result (handleListeningAnswers userAnswersText) o w
         = o unit (clock w) (ctx_reply (MsgNoActiveTask listening))).
Proof.
  split; intros H w'; subst w'.
  - change (wp (handleReadingAnswers userAnswersText) o w (fun r w' =>
      session w' = session w /\ files w' = files w
      /\ new_events w w'
         = [mkEvent (clock w) (any_call (ctx_reply (MsgNoActiveTask reading))) (session w)]
      /\ r = o unit (clock w) (ctx_reply (MsgNoActiveTask reading)))).
    wp_run. repeat split. new_events. reflexivity.
  - change (wp (handleListeningAnswers userAnswersText) o w (fun r w' =>
      session w' = session w /\ files w' = files w
      /\ new_events w w'
         = [mkEvent (clock w) (any_call (ctx_reply (MsgNoActiveTask listening))) (session w)]
      /\ r = o unit (clock w) (ctx_reply (MsgNoActiveTask listening)))).
    wp_run. repeat split. new_events. reflexivity.
Qed.

(** C6 on a fresh session. *)
Lemma C6_no_active_exercise_witness :
  session (exec (handleReadingAnswers "1. yes 2. no") cooperative fresh_world)
  = session fresh_world.
Proof.
  apply (proj1 (C6_no_active_exercise cooperative fresh_world "1. yes 2. no")).
  reflexivity.
Defined.

Ltac find_event tac :=
  first [ apply Exists_cons_hd; cbn [ev_call ev_tick ev_session call_prompt]; solve [tac]
        | apply Exists_app; left; find_event tac
        | apply Exists_app; right; find_event tac ].

Ltac split_events :=
  repeat first [ apply Forall_nil_2 | apply Forall_cons_2 | apply Forall_app_2 ].

(** ** Voice submissions *)


Lemma transcribeAudioFromUrl_quiet (o : Oracle) (w : World) (fileUrl : string) :
  wp (transcribeAudioFromUrl fileUrl) o w (fun _ w' =>
    session w' = session w
    /\ exists evs, trace w' = trace w ++ evs /\ Forall (quiet (session w)) evs).
Proof.
  unfold transcribeAudioFromUrl. wp_run.
  all: split; [reflexivity|]; eexists; split;
       [rewrite <- ?app_assoc; reflexivity | repeat constructor].
Qed.

Ltac wp_transcribe :=
  lazymatch goal with
  | |- wp (transcribeAudioFromUrl _) _ _ _ =>
      let r := fresh "r" in
      let w' := fresh "w" in
      let Hs := fresh "Hs" in
      let evs := fresh "evs" in
      let Ht := fresh "Ht" in
      let Hq := fresh "Hq" in
      eapply wp_mono; [apply transcribeAudioFromUrl_quiet|];
      intros r w' (Hs & evs & Ht & Hq); cbn [session files clock trace after_call] in Hs, Ht, Hq;
      destruct r
  end.







(** ** A waiting mode has an exercise *)


(** C7 as stated fails: when the gateway answers the JSON text [null] to
    the generation request, the reachable session waits for answers while its
    exercise is [null]. *)
Lemma C7_waiting_without_exercise :
  reachable (handle null_generator 7 (callback_query (PRACTICE reading)) launch)
  /\ exists s,
       sessions (handle null_generator 7 (callback_query (PRACTICE reading)) launch) !! 7 = Some s
       /\ state (readingMode s) = waiting_for_answers
       /\ exercise (readingMode s) = VNull.
Proof.
  split.
  - apply reachable_handle; [exact I | apply reachable_launch].
  - eexists. split; [vm_compute; reflexivity|]. split; reflexivity.
Qed.

Ltac learn_generated Hgen :=
  repeat match goal with
         | E : _ _ _ (responses_create ?p) = Returned ?v |- _ =>
             lazymatch goal with
             | _ : nullish v = false |- _ => fail
             | _ => pose proof (Hgen _ p v eq_refl E)
             end
         end.

Ltac inv_finish Hgen :=
  learn_generated Hgen;
  unfold exercise_present in *; session_simpl;
  repeat match goal with Hs : session _ = session _ |- _ => rewrite Hs end;
  intuition (try congruence).

Lemma handlers_keep_exercise_present (u : Update) (handler : M unit) (o : Oracle) (w : World) :
  route u = Some handler ->
  generates_exercises o ->
  exercise_present (session w) ->
  exercise_present (session (exec handler o w)).
Proof.
  intros Hr Hgen Hinv.
  change (wp handler o w (fun _ w' => exercise_present (session w'))).
  destruct u as [|[lvl|type|type|]|text|file_id]; cbn in Hr.
  - injection Hr as <-. wp_run; inv_finish Hgen.
  - destruct (bool_decide (lvl ∈ levels)); [|discriminate].
    injection Hr as <-. wp_run; inv_finish Hgen.
  - injection Hr as <-. destruct type; wp_run; inv_finish Hgen.
  - destruct type; try discriminate; injection Hr as <-; wp_run; inv_finish Hgen.
  - injection Hr as <-. wp_run; inv_finish Hgen.
  - repeat match type of Hr with (if ?b then _ else _) = _ => destruct b end;
      injection Hr as <-; wp_run; inv_finish Hgen.
  - injection Hr as <-. wp_run; try wp_transcribe; wp_run; inv_finish Hgen.
Qed.

Lemma createEmptySession_exercise_present : exercise_present createEmptySession.
Proof. repeat split; intros H; destruct H; reflexivity. Qed.

(** Invariants of sessions are invariants of the store: it is enough that a
    fresh session satisfies [I] and that every handler keeps it. *)
Section StoreInvariant.
Variable honest : Oracle -> Prop.
Variable I : Session -> Prop.
Hypothesis I_fresh : I createEmptySession.
Hypothesis I_kept :
  forall u handler o w,
    route u = Some handler -> honest o -> I (session w) -> I (session (exec handler o w)).

Lemma open_session_ok (u : Update) (userId : Z) (ss : gmap Z Session) :
  store_ok I ss ->
  I (open_session u userId ss).1 /\ store_ok I (open_session u userId ss).2.
Proof.
  intros Hss.
  assert (Hreset : store_ok I (<[userId := createEmptySession]> ss)).
  { intros k s. destruct (decide (k = userId)) as [->|Hne].
    - rewrite lookup_insert_eq. intros [= <-]. exact I_fresh.
    - rewrite lookup_insert_ne by auto. apply Hss. }
  assert (Hget : I (getSession userId ss).1 /\ store_ok I (getSession userId ss).2).
  { unfold getSession. destruct (ss !! userId) as [s|] eqn:Hs; cbn.
    - split; [eapply Hss; eassumption | assumption].
    - split; [exact I_fresh | assumption]. }
  destruct u; cbn [open_session]; try exact Hget.
  split; [exact I_fresh | exact Hreset].
Qed.

Lemma reachable_store_ok (b : Bot) : reachable_with honest b -> store_ok I (sessions b).
Proof.
  induction 1 as [|o uid u b Ho Hb IH].
  - intros userId s. cbn. rewrite lookup_empty. discriminate.
  - unfold handle. destruct (route u) as [handler|] eqn:Hr; [|exact IH].
    destruct (open_session_ok u uid (sessions b) IH) as [Hs Hss].
    destruct (open_session u uid (sessions b)) as [s0 ss]. cbn [fst snd] in Hs, Hss.
    pose proof (I_kept u handler o (mkWorld s0 (disk b) (ticks b) (history b)) Hr Ho Hs) as Hk.
    unfold exec in Hk.
    destruct (handler o (mkWorld s0 (disk b) (ticks b) (history b))) as [r w'].
    cbn [snd sessions] in *. intros userId s.
    destruct (decide (userId = uid)) as [->|Hne].
    + rewrite lookup_insert_eq. intros [= <-]. exact Hk.
    + rewrite lookup_insert_ne by auto. apply Hss.
Qed.
End StoreInvariant.

(** C7, amended. Provided the gateway never returns [null] as a generated
    exercise, in every bot reachable from [launch] through any sequence of
    updates of any users, every stored session whose reading, listening or
    speaking state is not [idle] has a non-null exercise in that mode. *)
Theorem C7_waiting_mode_has_exercise (b : Bot) :
  reachable_with generates_exercises b ->
  forall userId s, sessions b !! userId = Some s -> exercise_present s.
Proof.
  apply reachable_store_ok.
  - apply createEmptySession_exercise_present.
  - exact handlers_keep_exercise_present.
Qed.

Lemma cooperative_generates_exercises : generates_exercises cooperative.
Proof. intros n [] v Hp H; try discriminate Hp; injection H as <-; reflexivity. Qed.

(** C7, amended, after one mode selection answered by a sample exercise. *)
Lemma C7_waiting_mode_has_exercise_witness :
  exists s,
    sessions (handle cooperative 7 (callback_query (PRACTICE reading)) launch) !! 7 = Some s
    /\ state (readingMode s) = waiting_for_answers
    /\ exercise_present s.
Proof.
  eexists. split; [vm_compute; reflexivity|]. split; [reflexivity|].
  apply (C7_waiting_mode_has_exercise
           (handle cooperative 7 (callback_query (PRACTICE reading)) launch)) with (userId := 7).
  - apply reachable_handle; [apply cooperative_generates_exercises | apply reachable_launch].
  - vm_compute; reflexivity.
Defined.

(** ** The total never goes below zero *)

Lemma addScoreToStats_not_negative (s : Session) (n : number) :
  total_not_negative s -> total_not_negative (addScoreToStats s n).
Proof.
  intros Hs st. unfold addScoreToStats.
  destruct (stats s) as [st0|] eqn:Hst; cbv zeta; destruct (isFinite n); cbn [negb].
  - cbn [stats set_stats]. intros [= <-]. apply Math_max_zero_not_negative.
  - rewrite Hst. intros [= <-]. apply Hs, Hst.
  - cbn [stats set_stats]. intros [= <-]. apply Math_max_zero_not_negative.
  - cbn [stats set_stats]. intros [= <-]. reflexivity.
Qed.

Ltac total_finish :=
  session_simpl;
  repeat match goal with Hs : session _ = session _ |- _ => rewrite Hs end;
  repeat first [ assumption | apply addScoreToStats_not_negative ].

Lemma handlers_keep_total_not_negative (u : Update) (handler : M unit) (o : Oracle)
    (w : World) :
  route u = Some handler ->
  total_not_negative (session w) ->
  total_not_negative (session (exec handler o w)).
Proof.
  intros Hr Hinv.
  change (wp handler o w (fun _ w' => total_not_negative (session w'))).
  destruct u as [|[lvl|type|type|]|text|file_id]; cbn in Hr.
  - injection Hr as <-. wp_run; total_finish.
  - destruct (bool_decide (lvl ∈ levels)); [|discriminate].
    injection Hr as <-. wp_run; total_finish.
  - injection Hr as <-. destruct type; wp_run; total_finish.
  - destruct type; try discriminate; injection Hr as <-; wp_run; total_finish.
  - injection Hr as <-. wp_run; total_finish.
  - repeat match type of Hr with (if ?b then _ else _) = _ => destruct b end;
      injection Hr as <-; wp_run; total_finish.
  - injection Hr as <-. wp_run; try wp_transcribe; wp_run; total_finish.
Qed.

(** X23. Whatever the collaborators answer, no stored total is ever negative. *)
Lemma reachable_total_not_negative (b : Bot) :
  reachable b -> forall userId s, sessions b !! userId = Some s -> total_not_negative s.
Proof.
  apply reachable_store_ok.
  - intros st [= <-]. reflexivity.
  - intros u handler o w Hr _. exact (handlers_keep_total_not_negative u handler o w Hr).
Qed.

(** ** An unset level *)



Ltac requests_finish :=
  unfold new_events; cbn [session files clock trace after_call];
  repeat match goal with Ht : trace _ = _ |- _ => rewrite Ht; clear Ht end;
  rewrite <- ?app_assoc; first [rewrite drop_app_length | rewrite drop_all].












(** * Further properties of the code *)

(** ** The session store *)

Lemma getSession_other (userId other : Z) (ss : gmap Z Session) :
  other <> userId -> (getSession userId ss).2 !! other = ss !! other.
Proof.
  intros Hne. unfold getSession. destruct (ss !! userId); cbn [snd]; [reflexivity|].
  apply lookup_insert_ne. auto.
Qed.

(** X1. [getSession] creates a session only for a user who has none: the session
    it returns is the one now stored for that user, a second call returns the
    same session and store, a user who had a session keeps it with the store
    unchanged, and no other user's entry is touched. *)
Lemma getSession_creates_once (userId : Z) (ss : gmap Z Session) :
  let s := (getSession userId ss).1 in
  let ss' := (getSession userId ss).2 in
  ss' !! userId = Some s
  /\ getSession userId ss' = (s, ss')
  /\ (forall other, other <> userId -> ss' !! other = ss !! other)
  /\ match ss !! userId with
     | Some s0 => s = s0 /\ ss' = ss
     | None => s = createEmptySession
     end.
Proof.
  unfold getSession. destruct (ss !! userId) as [s0|] eqn:H; cbn [fst snd].
  - rewrite H. repeat split; auto.
  - rewrite lookup_insert_eq. repeat split; auto.
    intros other Hne. apply lookup_insert_ne. auto.
Qed.

(** X2. [resetSession] installs a fresh session whatever was stored before: the
    next [getSession] returns [createEmptySession], resetting twice is resetting
    once, and no other user's entry is touched. *)
Lemma resetSession_replaces_wholesale (userId : Z) (ss : gmap Z Session) :
  getSession userId (resetSession userId ss) = (createEmptySession, resetSession userId ss)
  /\ resetSession userId (resetSession userId ss) = resetSession userId ss
  /\ (forall other, other <> userId -> resetSession userId ss !! other = ss !! other).
Proof.
  unfold resetSession, getSession. rewrite lookup_insert_eq.
  repeat split.
  - apply insert_insert_eq.
  - intros other Hne. apply lookup_insert_ne. auto.
Qed.

(** X3. After [/start] the user's stored session is the fresh one, whatever it
    was before and whatever the two greetings answer: level, mode, pending
    exercises and points are all gone. *)
Lemma start_command_forgets_everything (o : Oracle) (userId : Z) (b : Bot) :
  sessions (handle o userId command_start b) !! userId = Some createEmptySession.
Proof.
  assert (H : session (exec on_start o
                        (mkWorld createEmptySession (disk b) (ticks b) (history b)))
              = createEmptySession).
  { change (wp on_start o (mkWorld createEmptySession (disk b) (ticks b) (history b))
              (fun _ w' => session w' = createEmptySession)).
    wp_run; reflexivity. }
  unfold handle, exec in *. cbn [route open_session].
  destruct (on_start o _) as [r w']. cbn [snd sessions] in *.
  rewrite lookup_insert_eq, H. reflexivity.
Qed.

(** X4. Handling an update of one user never changes the stored session of
    another user. *)
Lemma users_are_isolated (o : Oracle) (userId other : Z) (u : Update) (b : Bot) :
  other <> userId ->
  sessions (handle o userId u b) !! other = sessions b !! other.
Proof.
  intros Hne. unfold handle. destruct (route u) as [handler|]; [|reflexivity].
  assert (H : (open_session u userId (sessions b)).2 !! other = sessions b !! other).
  { destruct u; cbn [open_session];
      try (apply getSession_other; assumption).
    apply lookup_insert_ne. auto. }
  destruct (open_session u userId (sessions b)) as [s ss]. cbn [snd] in H.
  destruct (handler o _) as [r w']. cbn [sessions].
  rewrite lookup_insert_ne by auto. exact H.
Qed.

Lemma users_are_isolated_witness :
  sessions (handle cooperative 7 (callback_query (PRACTICE reading))
              (handle cooperative 8 command_start launch)) !! 8
  = sessions (handle cooperative 8 command_start launch) !! 8.
Proof.
  apply (users_are_isolated cooperative 7 8). discriminate.
Defined.

(** ** Clamping a score for display *)

Lemma le3_or_lt3 (a b : Z * Z * Z) : le3 a b \/ lt3 b a.
Proof. destruct a as [[]], b as [[]]; unfold le3, lt3; lia. Qed.

Lemma Math_min_left (x y : number) : ltb x y = true -> Math_min x y = x.
Proof.
  unfold ltb, SFltb, Math_min. destruct (SFcompare x y) as [[]|]; try discriminate. reflexivity.
Qed.

Lemma Math_max_left (x y : number) : ltb y x = true -> Math_max x y = x.
Proof.
  unfold ltb, SFltb, Math_max. rewrite !SFcompare_key.
  destruct (key x) as [a|], (key y) as [b|]; try discriminate.
  destruct (lex3_spec b a) as [E|H|H]; try discriminate. intros _.
  destruct (lex3_spec a b) as [E'|H'|H']; try reflexivity.
  - subst. destruct (lt3_irrefl _ H).
  - destruct (lt3_asym _ _ H H').
Qed.

Lemma clamp_key_cases (x : number) (kx : Z * Z * Z) :
  key x = Some kx ->
  exists kc, key (Math_max n0 (Math_min n500 x)) = Some kc
    /\ ((le3 (0, 0, 0) kx /\ le3 kx (1, -44, 8796093022208000) /\ kc = kx)
        \/ (lt3 kx (0, 0, 0) /\ kc = (0, 0, 0))
        \/ (lt3 (1, -44, 8796093022208000) kx /\ kc = (1, -44, 8796093022208000))).
Proof.
  intros Hx.
  destruct (le3_or_lt3 kx (1, -44, 8796093022208000)) as [H5|H5].
  - assert (Hm : key (Math_min n500 x) = Some kx).
    { rewrite key_Math_min; [exact Hx|]. apply (leb_key _ _ _ _ Hx key_n500), H5. }
    destruct (le3_or_lt3 (0, 0, 0) kx) as [H0|H0].
    + exists kx. split; [|auto].
      rewrite key_Math_max; [exact Hm|]. apply (leb_key _ _ _ _ key_n0 Hm), H0.
    + exists (0, 0, 0). split; [|auto].
      rewrite Math_max_left; [reflexivity|]. apply (ltb_key _ _ _ _ Hm key_n0), H0.
  - exists (1, -44, 8796093022208000). split; [|auto].
    rewrite (Math_min_left n500 x) by (apply (ltb_key _ _ _ _ key_n500 Hx), H5).
    rewrite key_Math_max; [apply key_n500|]. vm_compute. reflexivity.
Qed.

Lemma key_not_nan (x : number) : is_nan x = false -> exists kx, key x = Some kx.
Proof. destruct x as [[]|[]| |[]]; try discriminate; eexists; reflexivity. Qed.

Lemma clamp_in_bounds (x : number) :
  is_nan x = false ->
  leb n0 (Math_max n0 (Math_min n500 x)) = true
  /\ leb (Math_max n0 (Math_min n500 x)) n500 = true.
Proof.
  intros H. destruct (key_not_nan x H) as (kx & Hx).
  destruct (clamp_key_cases x kx Hx) as (kc & Hc & Hcases).
  rewrite (leb_key _ _ _ _ key_n0 Hc), (leb_key _ _ _ _ Hc key_n500).
  destruct kx as [[]], kc as [[]]; unfold le3, lt3 in *.
  destruct Hcases as [(?&?&E)|[(?&E)|(?&E)]]; injection E as -> -> ->; lia.
Qed.

(** X5. The display clamp [Math.max(0, Math.min(500, x))] lies within [0, 500]
    for every number that is not NaN, is monotone, is the identity (up to the
    sign of zero) on [0, 500], and lets NaN through. *)
Lemma display_clamp_bounds (x y : number) :
  let clamp := fun v => Math_max n0 (Math_min n500 v) in
  (is_nan x = false -> leb n0 (clamp x) = true /\ leb (clamp x) n500 = true)
  /\ (leb x y = true -> leb (clamp x) (clamp y) = true)
  /\ (leb n0 x = true -> leb x n500 = true -> key (clamp x) = key x)
  /\ clamp NaN = NaN.
Proof.
  intros clamp. subst clamp. cbv beta. split; [|split; [|split]].
  - apply clamp_in_bounds.
  - intros (kx & ky & Hx & Hy & Hle)%leb_true_key.
    destruct (clamp_key_cases x kx Hx) as (kc & Hc & Hcases).
    destruct (clamp_key_cases y ky Hy) as (kd & Hd & Hdcases).
    apply (leb_key _ _ _ _ Hc Hd).
    destruct kx as [[]], kc as [[]], ky as [[]], kd as [[]]; unfold le3, lt3 in *.
    destruct Hcases as [(?&?&E1)|[(?&E1)|(?&E1)]], Hdcases as [(?&?&E2)|[(?&E2)|(?&E2)]];
      injection E1 as -> -> ->; injection E2 as -> -> ->; lia.
  - apply clamp_key.
  - reflexivity.
Qed.

Lemma display_clamp_bounds_witness :
  leb (Math_max n0 (Math_min n500 (of_Z 730))) n500 = true.
Proof.
  apply (display_clamp_bounds (of_Z 730) (of_Z 730)). reflexivity.
Defined.

Lemma clamp_above (x : number) : ltb n500 x = true -> Math_max n0 (Math_min n500 x) = n500.
Proof.
  intros H. rewrite (Math_min_left n500 x H). vm_compute. reflexivity.
Qed.

Lemma clamp_below (x : number) : leb x n0 = true -> Math_max n0 (Math_min n500 x) = n0.
Proof.
  intros (kx & k0 & Hx & H0 & Hle)%leb_true_key.
  rewrite key_n0 in H0. injection H0 as <-.
  assert (Hm : Math_min n500 x = x).
  { unfold Math_min. rewrite SFcompare_key, key_n500, Hx.
    destruct (lex3_spec (1, -44, 8796093022208000) kx) as [E|H|H]; try reflexivity;
      exfalso; destruct kx as [[]]; unfold le3, lt3 in *; try injection E as <- <- <-; lia. }
  rewrite Hm. unfold Math_max. rewrite SFcompare_key, key_n0, Hx.
  destruct (lex3_spec (0, 0, 0) kx) as [E|H|H]; try reflexivity.
  exfalso. destruct kx as [[]]; unfold le3, lt3 in *; lia.
Qed.

(** X6. Outside the range the bar saturates: all ten cells are filled above 500,
    none at or below 0; a NaN score gives the empty string, no bar at all. *)
Lemma progress_bar_saturates (score : number) :
  (ltb n500 score = true -> buildProgressBar score = Returned (repeat_string "⬛" 10))
  /\ (leb score n0 = true -> buildProgressBar score = Returned (repeat_string "⬜" 10))
  /\ buildProgressBar NaN = Returned "".
Proof.
  repeat split.
  - intros H. unfold buildProgressBar. rewrite (clamp_above score H). vm_compute. reflexivity.
  - intros H. unfold buildProgressBar. rewrite (clamp_below score H). vm_compute. reflexivity.
Qed.

Lemma progress_bar_saturates_witness :
  buildProgressBar (of_Z 730) = Returned (repeat_string "⬛" 10).
Proof.
  apply (progress_bar_saturates (of_Z 730)). reflexivity.
Defined.

(** X7. The tier saturates the same way: scores above 500 get the top tier,
    scores at or below 0 the lowest; a NaN score, for which every comparison is
    false, falls through to the top tier. *)
Lemma ramyun_level_saturates (score : number) :
  (ltb n500 score = true -> getRamyunLevelMeta score = ramyun_nuclear)
  /\ (leb score n0 = true -> getRamyunLevelMeta score = ramyun_mild)
  /\ getRamyunLevelMeta NaN = ramyun_nuclear.
Proof.
  repeat split.
  - intros H. unfold getRamyunLevelMeta. rewrite (clamp_above score H). vm_compute. reflexivity.
  - intros H. unfold getRamyunLevelMeta. rewrite (clamp_below score H). vm_compute. reflexivity.
Qed.

Lemma ramyun_level_saturates_witness :
  getRamyunLevelMeta (of_Z (-3)) = ramyun_mild.
Proof.
  apply (ramyun_level_saturates (of_Z (-3))). reflexivity.
Defined.

(** ** Integer scores are added exactly *)

Lemma score_exact_on_range :
  forallb (fun t => forallb (fun d => score_exact (Z.of_nat t) (Z.of_nat d - 10)) (seq 0 21))
          (seq 0 2001) = true.
Proof. vm_compute. reflexivity. Qed.

Lemma number_eqb_eq (x y : number) : number_eqb x y = true -> x = y.
Proof.
  destruct x as [[]|[]| |[] m e], y as [[]|[]| |[] m' e']; try discriminate; try reflexivity.
  all: cbn; intros [Hm He%Z.eqb_eq]%andb_prop; apply Pos.eqb_eq in Hm; congruence.
Qed.

(** X8. On integer totals up to 2000 and integer scores between -10 and 10 the
    binary64 arithmetic of [addScoreToStats] is exact: the new total is the
    integer [max 0 (t + d)]. *)
Lemma integer_scores_add_exactly (s : Session) (t d : Z) :
  0 <= t <= 2000 -> -10 <= d <= 10 ->
  stats s = Some {| totalScore := of_Z t |} ->
  stats (addScoreToStats s (of_Z d)) = Some {| totalScore := of_Z (Z.max 0 (t + d)) |}.
Proof.
  intros Ht Hd Hs.
  pose proof (proj1 (forallb_forall _ _) score_exact_on_range (Z.to_nat t)
                ltac:(apply in_seq; lia)) as H.
  cbv beta in H.
  pose proof (proj1 (forallb_forall _ _) H (Z.to_nat (d + 10))
                ltac:(apply in_seq; lia)) as H'.
  cbv beta in H'. rewrite !Z2Nat.id in H' by lia.
  replace (d + 10 - 10) with d in H' by lia.
  unfold score_exact in H'.
  rewrite (addScoreToStats_present _ {| totalScore := of_Z t |}) in H' by reflexivity.
  rewrite (addScoreToStats_present _ _ _ Hs).
  destruct (isFinite (of_Z d)); cbn [stats set_stats totalScore] in *.
  - apply number_eqb_eq in H'. congruence.
  - apply number_eqb_eq in H'. rewrite Hs. congruence.
Qed.

Lemma integer_scores_add_exactly_witness :
  stats (addScoreToStats (set_stats (Some {| totalScore := of_Z 493 |}) createEmptySession)
           (of_Z 7))
  = Some {| totalScore := of_Z 500 |}.
Proof.
  apply (integer_scores_add_exactly _ 493 7); [lia | lia | reflexivity].
Defined.

(** ** Checking answers *)



(** ** Free chat keeps no state *)

(** X10. Free chat keeps no state: starting it, a chat message, and in free mode
    every text and voice message, leave the session exactly as it was, whatever
    the collaborators answer. *)
Lemma free_chat_is_stateless (o : Oracle) (w : World) (userText file_id : string) :
  session (exec startFreeChat o w) = session w
  /\ session (exec (handleFreeChatMessage userText) o w) = session w
  /\ (practiceType (session w) = Some free ->
      session (exec (on_text userText) o w) = session w
      /\ session (exec (on_voice file_id) o w) = session w).
Proof.
  split; [|split; [|intros Hp; split]].
  - change (wp startFreeChat o w (fun _ w' => session w' = session w)).
    wp_run; reflexivity.
  - change (wp (handleFreeChatMessage userText) o w (fun _ w' => session w' = session w)).
    wp_run; reflexivity.
  - change (wp (on_text userText) o w (fun _ w' => session w' = session w)).
    wp_run; reflexivity.
  - change (wp (on_voice file_id) o w (fun _ w' => session w' = session w)).
    wp_run; try wp_transcribe; wp_run; try reflexivity; try assumption.
    all: rewrite Hp in *; discriminate.
Qed.

Lemma free_chat_is_stateless_witness :
  session (exec (on_voice "voice-1") cooperative
             (mkWorld (set_practiceType (Some free) createEmptySession) ∅ 0 []))
  = set_practiceType (Some free) createEmptySession.
Proof.
  apply (free_chat_is_stateless cooperative
           (mkWorld (set_practiceType (Some free) createEmptySession) ∅ 0 []) "" "voice-1").
  reflexivity.
Defined.

(** ** Updates that nobody waits for *)

Ltac decide_conditions :=
  repeat match goal with
         | E : _ && _ = true |- _ => apply andb_prop in E as [? ?]
         | E : _ || _ = false |- _ => apply orb_false_elim in E as [? ?]
         | E : negb _ = false |- _ => apply negb_false_iff in E
         | E : negb _ = true |- _ => apply negb_true_iff in E
         | E : bool_decide _ = true |- _ => apply bool_decide_eq_true_1 in E
         | E : bool_decide _ = false |- _ => apply bool_decide_eq_false_1 in E
         end.

(** X11. Outside free chat, a text that arrives while a voice answer is awaited
    only triggers the request to send a voice message; a text or a voice message
    that no mode is waiting for is passed on with no call and no change at all. *)
Lemma unexpected_updates_are_ignored (o : Oracle) (w : World) (text file_id : string) :
  let s := session w in
  practiceType s <> Some free ->
  (practiceType s = Some speaking /\ speaking_state (speakingMode s) = waiting_for_voice ->
     String.eqb text CHANGE_LEVEL_TEXT || String.eqb text CHANGE_MODE_TEXT
       || String.eqb text SHOW_PROGRESS_TEXT = false ->
     exec (on_text text) o w = after_call w (ctx_reply MsgVoicePlease))
  /\ (~ (practiceType s = Some reading /\ state (readingMode s) = waiting_for_answers) ->
      ~ (practiceType s = Some listening /\ state (listeningMode s) = waiting_for_answers) ->
      ~ (practiceType s = Some speaking /\ speaking_state (speakingMode s) = waiting_for_voice) ->
      exec (on_text text) o w = w)
  /\ (~ (practiceType s = Some speaking /\ speaking_state (speakingMode s) = waiting_for_voice) ->
      exec (on_voice file_id) o w = w).
Proof.
  intros s Hfree. subst s. repeat split.
  - intros [Hp Hst] Hmenu.
    change (wp (on_text text) o w (fun _ w' => w' = after_call w (ctx_reply MsgVoicePlease))).
    unfold on_text. wp_run; try reflexivity; decide_conditions; congruence.
  - intros Hr Hl Hs.
    change (wp (on_text text) o w (fun _ w' => w' = w)).
    unfold on_text. wp_run; try (destruct w; reflexivity); decide_conditions;
      try congruence; tauto.
  - intros Hs.
    change (wp (on_voice file_id) o w (fun _ w' => w' = w)).
    unfold on_voice. wp_run; try (destruct w; reflexivity); decide_conditions;
      try congruence; tauto.
Qed.

Lemma unexpected_updates_are_ignored_witness :
  exec (on_voice "voice-1") cooperative pending_reading = pending_reading.
Proof.
  apply (unexpected_updates_are_ignored cooperative pending_reading "" "voice-1").
  - discriminate.
  - intros [H _]. discriminate H.
Defined.

(** Turn a statement about the world (or the outcome) after a run into a
    weakest precondition. *)
Ltac to_wp :=
  lazymatch goal with
  | |- session (exec ?m ?o ?w) = ?r => change (wp m o w (fun _ w' => session w' = r))
  | |- new_events ?w (exec ?m ?o ?w) = ?r =>
      change (wp m o w (fun _ w' => new_events w w' = r))
  | |- exec ?m ?o ?w = ?r => change (wp m o w (fun _ w' => w' = r))
  | |- result ?m ?o ?w = ?r => change (wp m o w (fun x _ => x = r))
  end.

(** ** Starting an exercise: what a failed or an answered generation leaves *)

(** X12. When the generation request is rejected, starting a reading, listening
    or speaking exercise leaves the session untouched and issues exactly two
    calls: the request and the notice that the exercise could not be prepared. *)
Lemma failed_generation_changes_nothing (o : Oracle) (w : World) (e : Exn) :
  let level := level_or_default (level (session w)) in
  let notice type := mkEvent (S (clock w)) (any_call (ctx_reply (MsgCouldNotPrepare type)))
                             (session w) in
  (o JsVal (clock w) (responses_create (PGenerateReading level)) = Thrown e ->
     session (exec startReadingExercise o w) = session w
     /\ new_events w (exec startReadingExercise o w)
        = [mkEvent (clock w) (any_call (responses_create (PGenerateReading level))) (session w);
           notice reading]
     /\ session (exec startListeningExercise o w) = session w
     /\ new_events w (exec startListeningExercise o w)
        = [mkEvent (clock w) (any_call (responses_create (PGenerateReading level))) (session w);
           notice listening])
  /\ (o JsVal (clock w) (responses_create (PGenerateSpeaking level)) = Thrown e ->
      session (exec startSpeakingExercise o w) = session w
      /\ new_events w (exec startSpeakingExercise o w)
         = [mkEvent (clock w) (any_call (responses_create (PGenerateSpeaking level))) (session w);
            notice speaking]).
Proof.
  intros level notice. subst level notice. split; intros H.
  - split; [|split; [|split]].
    + to_wp.
      wp_run; reflexivity.
    + to_wp.
      wp_run; new_events; reflexivity.
    + to_wp.
      wp_run; reflexivity.
    + to_wp.
      wp_run; new_events; reflexivity.
  - split.
    + to_wp.
      wp_run; reflexivity.
    + to_wp.
      wp_run; new_events; reflexivity.
Qed.

Lemma failed_generation_changes_nothing_witness :
  session (exec startSpeakingExercise (failing_at 0 cooperative) pending_reading)
  = session pending_reading.
Proof.
  apply (failed_generation_changes_nothing (failing_at 0 cooperative) pending_reading
           ExternalFailure).
  reflexivity.
Defined.

(** X13. The generated value is stored, and the mode waits, from the moment the
    gateway answers: nothing that happens while the exercise is presented takes
    that back. *)
Lemma answered_generation_is_committed (o : Oracle) (w : World) (generated : JsVal) :
  let level := level_or_default (level (session w)) in
  (o JsVal (clock w) (responses_create (PGenerateReading level)) = Returned generated ->
     session (exec startReadingExercise o w)
     = set_reading {| state := waiting_for_answers; exercise := generated |} (session w)
     /\ session (exec startListeningExercise o w)
        = set_listening {| state := waiting_for_answers; exercise := generated |} (session w))
  /\ (o JsVal (clock w) (responses_create (PGenerateSpeaking level)) = Returned generated ->
      session (exec startSpeakingExercise o w)
      = set_speaking {| speaking_state := waiting_for_voice; speaking_exercise := generated;
                        lastTranscript := None |} (session w)).
Proof.
  intros level. subst level. split; intros H; [split|].
  - to_wp.
    wp_run; reflexivity.
  - to_wp.
    wp_run; reflexivity.
  - to_wp.
    wp_run; reflexivity.
Qed.

Lemma answered_generation_is_committed_witness :
  session (exec startReadingExercise (failing_at 1 cooperative) fresh_world)
  = set_reading {| state := waiting_for_answers; exercise := sample_exercise |}
      createEmptySession.
Proof.
  apply (answered_generation_is_committed (failing_at 1 cooperative) fresh_world sample_exercise).
  reflexivity.
Defined.

(** ** The audio pipeline, path by path *)

(** X14. When the download is refused (a response that is not ok) or rejected,
    [transcribeAudioFromUrl] throws after that single call: no directory, no
    file, no further request. *)
Lemma failed_download_creates_nothing (o : Oracle) (w : World) (fileUrl : string) :
  (o Response (clock w) (fetch fileUrl) = Returned {| ok := false |} ->
     result (transcribeAudioFromUrl fileUrl) o w = Thrown DownloadFailed
     /\ exec (transcribeAudioFromUrl fileUrl) o w = after_call w (fetch fileUrl))
  /\ (forall e, o Response (clock w) (fetch fileUrl) = Thrown e ->
        result (transcribeAudioFromUrl fileUrl) o w = Thrown e
        /\ exec (transcribeAudioFromUrl fileUrl) o w = after_call w (fetch fileUrl)).
Proof.
  split; [intros H | intros e H]; split; to_wp; unfold transcribeAudioFromUrl; wp_run;
    reflexivity.
Qed.

Lemma failed_download_creates_nothing_witness :
  files (exec (transcribeAudioFromUrl "https://files/voice") (failing_at 0 cooperative)
           fresh_world) = ∅.
Proof.
  rewrite (proj2 (proj2 (failed_download_creates_nothing (failing_at 0 cooperative) fresh_world
                           "https://files/voice") ExternalFailure eq_refl)).
  reflexivity.
Defined.

Lemma scratch_paths_differ (ts : Z) : oggPath_of ts <> mp3Path_of ts.
Proof. unfold oggPath_of, mp3Path_of. cbn. discriminate. Qed.

(** X15. A deletion that fails is swallowed: the transcript is returned all the
    same, and the file that could not be deleted stays. *)
Lemma failed_deletion_is_swallowed (o : Oracle) (w : World) (fileUrl : string)
    (buf : Buffer) (ts : Z) (fields : list (string * JsVal)) (text : string) :
  let n := clock w in
  o _ n (fetch fileUrl) = Returned {| ok := true |} ->
  o _ (S n) res_arrayBuffer = Returned buf ->
  o _ (S (S n)) (fs_mkdir "tmp") = Returned tt ->
  o _ (S (S (S n))) Date_now = Returned ts ->
  o _ (S (S (S (S n)))) (fs_writeFile (oggPath_of ts) buf) = Returned tt ->
  o _ (S (S (S (S (S n))))) (ffmpeg_save (oggPath_of ts) (mp3Path_of ts)) = Returned tt ->
  o _ (S (S (S (S (S (S n)))))) (audio_transcriptions_create (mp3Path_of ts))
    = Returned (VObj fields) ->
  own_property fields "text" = VStr text ->
  String.eqb text "" = false ->
  let w' := exec (transcribeAudioFromUrl fileUrl) o w in
  result (transcribeAudioFromUrl fileUrl) o w = Returned (trim text)
  /\ (forall e, o _ (S (S (S (S (S (S (S n))))))) (fs_unlink (oggPath_of ts)) = Thrown e ->
        oggPath_of ts ∈ files w')
  /\ (forall e, o _ (S (S (S (S (S (S (S (S n)))))))) (fs_unlink (mp3Path_of ts)) = Thrown e ->
        mp3Path_of ts ∈ files w').
Proof.
  intros n H0 H1 H2 H3 H4 H5 H6 Ht Hne w'. subst n w'.
  pose proof (scratch_paths_differ ts) as Hd.
  change (wp (transcribeAudioFromUrl fileUrl) o w (fun r w' =>
    r = Returned (trim text)
    /\ (forall e, o _ (S (S (S (S (S (S (S (clock w)))))))) (fs_unlink (oggPath_of ts)) = Thrown e ->
          oggPath_of ts ∈ files w')
    /\ (forall e, o _ (S (S (S (S (S (S (S (S (clock w))))))))) (fs_unlink (mp3Path_of ts)) = Thrown e ->
          mp3Path_of ts ∈ files w'))).
  unfold transcribeAudioFromUrl. wp_run.
  all: rewrite Ht in E1; cbn [js_truthy] in E1; rewrite Hne in E1; cbn [negb] in E1;
       try discriminate E1; injection E1 as <-.
  all: split; [reflexivity|]; split; intros ? ?; try congruence; set_solver.
Qed.

Lemma failed_deletion_is_swallowed_witness :
  let o := failing_at 7 cooperative in
  result (transcribeAudioFromUrl "https://files/voice") o fresh_world
    = Returned "I like kimchi."
  /\ oggPath_of 1700000000000
     ∈ files (exec (transcribeAudioFromUrl "https://files/voice") o fresh_world).
Proof.
  intros o.
  pose proof (failed_deletion_is_swallowed o fresh_world "https://files/voice" []
                1700000000000 [("text", VStr " I like kimchi. ")] " I like kimchi. "
                eq_refl eq_refl eq_refl eq_refl eq_refl eq_refl eq_refl eq_refl eq_refl)
    as (Hr & Hogg & _).
  split; [exact Hr | exact (Hogg ExternalFailure eq_refl)].
Defined.

(** X16. A transcription without text (a falsy answer, or an answer whose [text]
    is falsy) gives the empty string, never [null] or [undefined]. *)
Lemma missing_text_gives_empty_string (o : Oracle) (w : World) (fileUrl : string)
    (buf : Buffer) (ts : Z) (transcription : JsVal) :
  let n := clock w in
  o _ n (fetch fileUrl) = Returned {| ok := true |} ->
  o _ (S n) res_arrayBuffer = Returned buf ->
  o _ (S (S n)) (fs_mkdir "tmp") = Returned tt ->
  o _ (S (S (S n))) Date_now = Returned ts ->
  o _ (S (S (S (S n)))) (fs_writeFile (oggPath_of ts) buf) = Returned tt ->
  o _ (S (S (S (S (S n))))) (ffmpeg_save (oggPath_of ts) (mp3Path_of ts)) = Returned tt ->
  o _ (S (S (S (S (S (S n)))))) (audio_transcriptions_create (mp3Path_of ts))
    = Returned transcription ->
  js_truthy transcription = false
  \/ (exists t, get_prop transcription "text" = Returned t /\ js_truthy t = false) ->
  result (transcribeAudioFromUrl fileUrl) o w = Returned "".
Proof.
  intros n H0 H1 H2 H3 H4 H5 H6 Hempty. subst n.
  to_wp. unfold transcribeAudioFromUrl.
  destruct Hempty as [Hf | (t & Ht & Hf)].
  - wp_run; reflexivity.
  - destruct (js_truthy transcription) eqn:Htr.
    + wp_run; try reflexivity.
      all: rewrite Hf in *; try discriminate.
      all: match goal with E : VStr _ = VStr _ |- _ => injection E as <- end; reflexivity.
    + wp_run; reflexivity.
Qed.

Lemma missing_text_gives_empty_string_witness :
  result (transcribeAudioFromUrl "https://files/voice")
         (fun X n c =>
            match c in Call X return Outcome X with
            | audio_transcriptions_create _ => Returned VNull
            | c' => cooperative _ n c'
            end) fresh_world
  = Returned "".
Proof.
  apply (missing_text_gives_empty_string _ fresh_world "https://files/voice" []
           1700000000000 VNull); try reflexivity.
  left. reflexivity.
Defined.

(** ** What escapes a handler *)

(** X17. The handlers of commands, buttons and menu entries swallow every
    failure: whatever the collaborators answer, they return normally. *)
Lemma button_handlers_never_throw (o : Oracle) (w : World) (type : PracticeType)
    (lvl : string) :
  result (handlePracticeChoice type) o w = Returned tt
  /\ result on_READING_NEXT o w = Returned tt
  /\ result on_LISTENING_NEXT o w = Returned tt
  /\ result on_SPEAKING_NEXT o w = Returned tt
  /\ result on_CHANGE_MODE_INLINE o w = Returned tt
  /\ result (on_LEVEL lvl) o w = Returned tt
  /\ result on_CHANGE_LEVEL_TEXT o w = Returned tt
  /\ result on_CHANGE_MODE_TEXT o w = Returned tt
  /\ result on_SHOW_PROGRESS_TEXT o w = Returned tt
  /\ result on_start o w = Returned tt.
Proof.
  repeat match goal with |- _ /\ _ => split end; to_wp.
  1: destruct type.
  all: wp_run; try reflexivity.
  all: repeat match goal with u : unit |- _ => destruct u end; reflexivity.
Qed.

(** X18. The text handler does not: in free chat, when the reply request is
    rejected and the notice that reports the failure is rejected as well, the
    second rejection leaves the handler. *)
Lemma text_handler_lets_failed_notice_escape (o : Oracle) (w : World) (text : string)
    (e e' : Exn) :
  practiceType (session w) = Some free ->
  String.eqb text CHANGE_LEVEL_TEXT || String.eqb text CHANGE_MODE_TEXT
    || String.eqb text SHOW_PROGRESS_TEXT = false ->
  o JsVal (clock w) (responses_create (PFreeChat (level_or_default (level (session w))) text))
    = Thrown e ->
  o unit (S (clock w)) (ctx_reply MsgFreeChatFailed) = Thrown e' ->
  result (on_text text) o w = Thrown e'.
Proof.
  intros Hp Hmenu Hgen Hnotice. to_wp. unfold on_text.
  wp_run; try reflexivity; decide_conditions; congruence.
Qed.

Lemma text_handler_lets_failed_notice_escape_witness :
  result (on_text "hello") (failing_at 1 (failing_at 0 cooperative))
         (mkWorld (set_practiceType (Some free) createEmptySession) ∅ 0 [])
  = Thrown ExternalFailure.
Proof.
  apply (text_handler_lets_failed_notice_escape _ _ "hello" ExternalFailure ExternalFailure);
    reflexivity.
Defined.

(** ** Menu entries *)

(** X19. The whole effect of the menu entries on the session: a level button
    stores its level, "change difficulty" clears the level, the inline "change
    mode" button clears the practice type, and "change mode" and "see progress"
    change nothing; in each case whatever the replies answer. *)
Lemma menu_handlers_effect (o : Oracle) (w : World) (lvl : string) :
  session (exec (on_LEVEL lvl) o w) = set_level (Some lvl) (session w)
  /\ session (exec on_CHANGE_LEVEL_TEXT o w) = set_level None (session w)
  /\ session (exec on_CHANGE_MODE_INLINE o w) = set_practiceType None (session w)
  /\ session (exec on_CHANGE_MODE_TEXT o w) = session w
  /\ session (exec on_SHOW_PROGRESS_TEXT o w) = session w.
Proof.
  repeat match goal with |- _ /\ _ => split end; to_wp; wp_run; reflexivity.
Qed.

(** ** The progress report *)

Lemma total_of_not_nan (s : Session) : is_nan (total_of s) = false.
Proof.
  unfold total_of. destruct (stats s) as [[t]|]; [|reflexivity].
  cbn [totalScore]. destruct t as [[]|[]| |[]]; reflexivity.
Qed.

Lemma ltb_of_not_leb (x y : number) :
  is_nan x = false -> is_nan y = false -> leb x y = false -> ltb y x = true.
Proof.
  intros (kx & Hx)%key_not_nan (ky & Hy)%key_not_nan H.
  apply (ltb_key _ _ _ _ Hy Hx).
  destruct (le3_or_lt3 kx ky) as [Hle|Hlt]; [|exact Hlt].
  apply (leb_key _ _ _ _ Hx Hy) in Hle. congruence.
Qed.

(** X20. The progress report. With a total of zero (or less) the only call is
    the "no points yet" reply. A progress message is sent only for a positive
    total, and then the score it shows lies within [0, 500] and the bar and the
    tier are those of that score. *)
Lemma progress_report (o : Oracle) (w : World) :
  let evs := new_events w (exec on_SHOW_PROGRESS_TEXT o w) in
  (leb (total_of (session w)) n0 = true ->
     evs = [mkEvent (clock w) (any_call (ctx_reply MsgNoPointsYet)) (session w)])
  /\ Forall (fun ev =>
               forall displayScore bar lvl,
                 call_reply (ev_call ev) = Some (MsgProgress displayScore bar lvl) ->
                 ltb n0 (total_of (session w)) = true
                 /\ leb n0 displayScore = true /\ leb displayScore n500 = true
                 /\ buildProgressBar displayScore = Returned bar
                 /\ lvl = getRamyunLevelMeta displayScore) evs.
Proof.
  intros evs. subst evs. split.
  - intros H. to_wp. wp_run; new_events; reflexivity.
  - lazymatch goal with
    | |- Forall ?P (new_events ?w (exec ?m ?o ?w)) =>
        change (wp m o w (fun _ w' => Forall P (new_events w w')))
    end.
    pose proof (clamp_in_bounds _ (total_of_not_nan (session w))) as [Hlo Hhi].
    wp_run.
    all: requests_finish; split_events; cbn [ev_call call_reply];
         intros ds bar lvl HP; try discriminate HP; injection HP as <- <- <-.
    all: repeat split; try assumption.
    all: apply ltb_of_not_leb; [apply total_of_not_nan | reflexivity | assumption].
Qed.

Lemma progress_report_witness :
  new_events fresh_world (exec on_SHOW_PROGRESS_TEXT cooperative fresh_world)
  = [mkEvent 0 (any_call (ctx_reply MsgNoPointsYet)) createEmptySession].
Proof.
  apply (progress_report cooperative fresh_world). reflexivity.
Defined.

(** ** The "next exercise" buttons *)

(** The notice of a "next" button is the last thing the handler sends, after
    the new exercise has been requested: the argument of [ctx.reply] is the
    awaited start of the exercise. *)
Ltac next_finish :=
  requests_finish;
  first
    [ solve [left; split_events; cbn [ev_call call_reply]; discriminate]
    | right; rewrite ?app_assoc; do 2 eexists; split; [reflexivity|];
      split; [reflexivity|];
      rewrite <- ?app_assoc;
      split; [split_events; cbn [ev_call call_reply]; discriminate|];
      find_event ltac:(eexists; split; reflexivity) ].

(** X21. The notice of a "next" button is the last call of its handler, sent
    once at most and only after the new exercise has been requested: the second
    argument of [ctx.reply] is the awaited start of the exercise. *)
Lemma next_notice_comes_last (o : Oracle) (w : World) :
  let shape (type : PracticeType) (evs : list Event) :=
    Forall (fun ev => call_reply (ev_call ev) <> Some (MsgNext type)) evs
    \/ exists before last,
         evs = before ++ [last]
         /\ call_reply (ev_call last) = Some (MsgNext type)
         /\ Forall (fun ev => call_reply (ev_call ev) <> Some (MsgNext type)) before
         /\ Exists (fun ev => exists p, call_prompt (ev_call ev) = Some p
                                        /\ generation_prompt p = true) before in
  shape reading (new_events w (exec on_READING_NEXT o w))
  /\ shape listening (new_events w (exec on_LISTENING_NEXT o w))
  /\ shape speaking (new_events w (exec on_SPEAKING_NEXT o w)).
Proof.
  intros shape. subst shape. cbv beta.
  repeat match goal with |- _ /\ _ => split end.
  all: lazymatch goal with
       | |- ?P \/ ?Q =>
         lazymatch P with
         | context [new_events ?w (exec ?m ?o ?w)] =>
           lazymatch eval pattern (exec m o w) in (P \/ Q) with
           | ?F _ => change (wp m o w (fun _ w' => F w'))
           end
         end
       end; cbv beta.
  all: wp_run.
  all: next_finish.
Qed.

(** ** The level setting *)

Lemma handlers_keep_level (u : Update) (handler : M unit) (o : Oracle) (w : World) :
  route u = Some handler ->
  (forall lvl, u <> callback_query (LEVEL lvl)) ->
  u <> text_message CHANGE_LEVEL_TEXT ->
  level (session (exec handler o w)) = level (session w).
Proof.
  intros Hr Hl Hc.
  change (wp handler o w (fun _ w' => level (session w') = level (session w))).
  destruct u as [|[lvl|type|type|]|text|file_id]; cbn in Hr.
  - injection Hr as <-. wp_run; total_finish; reflexivity.
  - destruct (Hl lvl). reflexivity.
  - injection Hr as <-. destruct type; wp_run; total_finish; reflexivity.
  - destruct type; try discriminate; injection Hr as <-; wp_run; total_finish; reflexivity.
  - injection Hr as <-. wp_run; total_finish; reflexivity.
  - destruct (String.eqb text CHANGE_LEVEL_TEXT) eqn:E.
    { apply String.eqb_eq in E. subst text. destruct Hc. reflexivity. }
    repeat match type of Hr with (if ?b then _ else _) = _ => destruct b end;
      injection Hr as <-; wp_run; total_finish; reflexivity.
  - injection Hr as <-. wp_run; try wp_transcribe; wp_run; total_finish; reflexivity.
Qed.

(** X22. The stored level of a user changes only on [/start], on a level button
    and on the "change difficulty" menu entry: every other update, whatever the
    collaborators answer, leaves it as it was. *)
Lemma level_changes_only_on_request (o : Oracle) (userId : Z) (u : Update) (b : Bot) :
  u <> command_start ->
  (forall lvl, u <> callback_query (LEVEL lvl)) ->
  u <> text_message CHANGE_LEVEL_TEXT ->
  stored_level userId (handle o userId u b) = stored_level userId b.
Proof.
  intros Hs Hl Hc. unfold stored_level, handle.
  destruct (route u) as [handler|] eqn:Hr; [|reflexivity].
  assert (Ho : open_session u userId (sessions b) = getSession userId (sessions b)).
  { destruct u; [destruct Hs|..]; reflexivity. }
  rewrite Ho. unfold getSession.
  destruct (sessions b !! userId) as [s|] eqn:Hlook.
  - pose proof (handlers_keep_level u handler o
                  (mkWorld s (disk b) (ticks b) (history b)) Hr Hl Hc) as H.
    unfold exec in H. destruct (handler o _) as [r w']. cbn [snd sessions session] in *.
    rewrite lookup_insert_eq. cbn. exact H.
  - pose proof (handlers_keep_level u handler o
                  (mkWorld createEmptySession (disk b) (ticks b) (history b)) Hr Hl Hc) as H.
    unfold exec in H. destruct (handler o _) as [r w']. cbn [snd sessions session] in *.
    rewrite lookup_insert_eq. cbn. exact H.
Qed.

Lemma level_changes_only_on_request_witness :
  let b := handle cooperative 7 (callback_query (LEVEL "3")) launch in
  stored_level 7 (handle cooperative 7 (callback_query (PRACTICE reading)) b)
  = stored_level 7 b.
Proof.
  apply (level_changes_only_on_request cooperative 7 (callback_query (PRACTICE reading)));
    discriminate.
Defined.

(** ** Witnesses of the store invariant and of a clean transcription *)

Lemma reachable_total_not_negative_witness :
  exists s,
    sessions (handle cooperative 7 (callback_query (PRACTICE reading)) launch) !! 7 = Some s
    /\ total_not_negative s.
Proof.
  eexists. split; [vm_compute; reflexivity|].
  apply (reachable_total_not_negative
           (handle cooperative 7 (callback_query (PRACTICE reading)) launch)) with (userId := 7).
  - apply reachable_handle; [exact I | apply reachable_launch].
  - vm_compute; reflexivity.
Defined.

Lemma transcribeAudioFromUrl_success_cleans_up_witness :
  let m := transcribeAudioFromUrl "https://files/voice" in
  result m cooperative fresh_world = Returned "I like kimchi."
  /\ omap (fun ev => call_unlink (ev_call ev)) (new_events fresh_world (exec m cooperative fresh_world))
     = [oggPath_of 1700000000000; mp3Path_of 1700000000000].
Proof.
  intros m.
  destruct (transcribeAudioFromUrl_success_cleans_up cooperative fresh_world
              "https://files/voice" [] 1700000000000 [("text", VStr " I like kimchi. ")]
              " I like kimchi. " eq_refl eq_refl eq_refl eq_refl eq_refl eq_refl eq_refl
              eq_refl eq_refl) as [Hr Hev].
  split; [exact Hr|]. subst m. rewrite Hev. reflexivity.
Defined.
